(** * Student management API: a shallow embedding of the Express handlers

    The repository holds two versions of the server.  The current one
    (src/unnamed/part_000) has the startup check on JWT_SECRET, the
    [authMiddleware] gate, the /auth routes and the /students and /courses
    resources; it is embedded in [Module Api].  The older src/server.js has no
    gate, no identifier check and only the /students resource; it is embedded
    in [Module Legacy].

    Express, the MongoDB driver, bcrypt and jsonwebtoken are not part of the
    repository.  What the handlers need from them is collected in the class
    [Libs]; the handlers are stated over any instance of it, and [Ref] is one
    instance on which the handlers can be evaluated. *)

From Stdlib Require Import ZArith NArith Lia List Ascii String.
From Stdlib Require Import DecimalString DecimalN.
From stdpp Require Import base option list strings gmap.

Local Open Scope string_scope.

(** ** JavaScript values *)

(** A MongoDB ObjectId: twelve bytes, read as a number. *)
Definition ObjectId := N.

(** The values that travel through the handlers: what [express.json()] puts in
    [req.body], what the driver stores and returns, and what [res.json] sends.
    JSON numbers are kept as integers. *)
#[local] Unset Elimination Schemes.
Inductive Value :=
| VUndefined
| VNull
| VBool (b : bool)
| VNum (n : Z)
| VStr (s : string)
| VArr (l : list Value)
| VObj (m : gmap string Value)
| VDate (ms : N)
| VId (o : ObjectId).
#[local] Set Elimination Schemes.

(** A JavaScript object used as a record of fields. *)
Abbreviation Obj := (gmap string Value).

(** [o.k]: reading a missing property gives [undefined]. *)
Definition get (o : Obj) (k : string) : Value := default VUndefined (o !! k).

(** The object literal [{ k1: v1, ..., kn: vn }]. *)
Definition obj (l : list (string * Value)) : Obj := list_to_map l.

(** JavaScript truthiness, as used by [!x] and [if (x)]. *)
Definition truthy (v : Value) : bool :=
  match v with
  | VUndefined | VNull => false
  | VBool b => b
  | VNum n => negb (n =? 0)%Z
  | VStr s => negb (String.eqb s "")
  | VArr _ | VObj _ | VDate _ | VId _ => true
  end.

(** ** Exceptions *)

(** A computation that returns or throws an [Error] with a message. *)
Inductive Result (A : Type) :=
| Ok (a : A)
| Throw (msg : string).
Arguments Ok {A} a.
Arguments Throw {A} msg.

#[global] Instance Result_ret : MRet Result := fun _ a => Ok a.
#[global] Instance Result_bind : MBind Result := fun _ _ f m =>
  match m with Ok a => f a | Throw msg => Throw msg end.

(** ** [String.prototype.split] with a one-character separator *)

Fixpoint split (sep : ascii) (s : string) : list string :=
  match s with
  | EmptyString => [EmptyString]
  | String c s' =>
      if Ascii.eqb c sep then EmptyString :: split sep s'
      else match split sep s' with
           | [] => [String c EmptyString]
           | w :: ws => String c w :: ws
           end
  end.

(** [c] occurs nowhere in [s]. *)
Fixpoint free_of (c : ascii) (s : string) : bool :=
  match s with
  | EmptyString => true
  | String a s' => negb (Ascii.eqb a c) && free_of c s'
  end.

Definition space : ascii := " "%char.

(** ** The libraries *)

(** The payload of a token: [{ userId, iat, exp }], times in whole seconds. *)
Record Claims := { userId : ObjectId; iat : N; exp : N }.

(** What the handlers use of bson, the MongoDB driver, bcrypt and
    jsonwebtoken.  Tokens, salts and digests are strings; the clock of
    jsonwebtoken counts whole seconds ([Math.floor(Date.now() / 1000)]). *)
Class Libs := {
  (** bson: the ObjectId denoted by a string, if it is well formed. *)
  ObjectId_parse : string -> option ObjectId;
  (** bson: whether [ObjectId(s)] may be called without [new] (a function
      constructor in bson 4, a class from bson 5 on). *)
  ObjectId_callable : bool;
  (** mongodb: does the filter [{ field: q }] select a document whose [field]
      holds [v] ([VUndefined] when the document has no such field). *)
  filter_match : Value -> Value -> bool;
  filter_match_str : forall a b,
    filter_match (VStr a) (VStr b) = String.eqb a b;
  (** bcrypt: the digest of [data] under [rounds] and a fresh [salt], and the
      comparison of a plaintext with a digest. *)
  bcrypt_digest : N -> string -> string -> string;
  bcrypt_check : string -> string -> bool;
  bcrypt_digest_not_plain : forall rounds salt data,
    bcrypt_digest rounds salt data <> data;
  (** jsonwebtoken: the signed token for [{ userId, iat, exp }] under a
      secret, and the verification of a token under a secret at a clock
      value.  A token is accepted as long as the clock is before [exp]; a
      token that verifies is not empty and holds no space. *)
  jws_sign : ObjectId -> string -> N -> N -> string;
  jws_verify : string -> string -> N -> option Claims;
  jws_verify_sign : forall uid secret t0 t1 clock,
    jws_verify (jws_sign uid secret t0 t1) secret clock =
    if (clock <? t1)%N then Some {| userId := uid; iat := t0; exp := t1 |}
    else None;
  jws_verify_shape : forall token secret clock c,
    jws_verify token secret clock = Some c ->
    token <> "" /\ free_of space token = true
}.

(** ** The store *)

(** A collection: the documents in their natural order, each with its [_id]
    and its other fields. *)
Abbreviation Collection := (list (ObjectId * Obj)).

(** The database [studentDB]. *)
Record DB := {
  users : Collection;
  students : Collection;
  courses : Collection
}.

(** The document as the driver hands it to JavaScript. *)
Definition document (d : ObjectId * Obj) : Value :=
  VObj (<["_id" := VId d.1]> d.2).

Definition has_id (o : ObjectId) (d : ObjectId * Obj) : bool := N.eqb d.1 o.

(** [collection.findOne({ _id: o })]. *)
Definition findOne_id (o : ObjectId) (c : Collection) : option (ObjectId * Obj) :=
  List.find (has_id o) c.

(** [collection.insertOne(doc)] with the [_id] the driver generated; [_id] is
    a unique index. *)
Definition insertOne (o : ObjectId) (doc : Obj) (c : Collection) : Result Collection :=
  if existsb (has_id o) c then Throw "E11000 duplicate key error collection"
  else Ok (c ++ [(o, doc)])%list.

(** [collection.replaceOne({ _id: o }, doc)]: the new collection and
    [matchedCount].  The replacement keeps the [_id] and nothing else. *)
Fixpoint replaceOne (o : ObjectId) (doc : Obj) (c : Collection) : Collection * N :=
  match c with
  | [] => ([], 0%N)
  | d :: c' =>
      if has_id o d then ((d.1, doc) :: c', 1%N)
      else let '(c'', n) := replaceOne o doc c' in (d :: c'', n)
  end.

(** [collection.deleteOne({ _id: o })]: the new collection and
    [deletedCount]. *)
Fixpoint deleteOne (o : ObjectId) (c : Collection) : Collection * N :=
  match c with
  | [] => ([], 0%N)
  | d :: c' =>
      if has_id o d then (c', 1%N)
      else let '(c'', n) := deleteOne o c' in (d :: c'', n)
  end.

(** The global [db]: [undefined] until [connectDB] has succeeded. *)
Definition the_db (db : option DB) : Result DB :=
  match db with
  | Some d => Ok d
  | None => Throw "Cannot read properties of undefined (reading 'collection')"
  end.

(** ** Requests and responses *)

(** What a request brings besides its route: the Authorization header, the
    parsed JSON body, and [req.user] once the gate has set it. *)
Record Request := {
  authorization : option string;
  req_body : Obj;
  user : option Claims
}.


(** The request with another Authorization header. *)
Definition with_header (req : Request) (h : string) : Request :=
  {| authorization := Some h; req_body := req_body req; user := user req |}.

(** What the outside world supplies while a request is handled: the time in
    milliseconds, the [_id] the driver generates for an insert, and the salt
    bcrypt draws. *)
Record Env := {
  now : N;
  fresh_id : ObjectId;
  salt : string
}.

(** The clock of jsonwebtoken. *)
Definition clock (e : Env) : N := (now e / 1000)%N.

Inductive Body :=
| Json (v : Value)
| Text (s : string)
| NoBody.

Record Response := { status : N; sent : Body }.

(** [res.status(n).json(o)], [res.status(n).send()] and [res.send(s)]. *)
Definition json (n : N) (o : Value) : Response := {| status := n; sent := Json o |}.
Definition empty (n : N) : Response := {| status := n; sent := NoBody |}.
Definition text (s : string) : Response := {| status := 200; sent := Text s |}.

(** [{ message: s }] and [{ error: s }]. *)
Definition message (s : string) : Value := VObj (obj [("message", VStr s)]).
Definition error (s : string) : Value := VObj (obj [("error", VStr s)]).

(** The object a response carries, if it carries one. *)
Definition payload (r : Response) : Obj :=
  match sent r with
  | Json (VObj m) => m
  | _ => ∅
  end.

(** A middleware either answers, leaving a new value of [db], or passes the
    request on. *)
Inductive Step :=
| Done (db : option DB) (r : Response)
| Next (req : Request).

Definition Middleware := option DB -> Env -> Request -> Step.

(** [try { ... } catch (error) { res.status(500).json({ error: error.message }) }].
    Every handler writes to the store in its last store call, so a throw
    leaves [db] as it was. *)
Definition try_catch (db : option DB) (m : Result (option DB * Response)) : Step :=
  match m with
  | Ok (db', r) => Done db' r
  | Throw msg => Done db (json 500 (error msg))
  end.

(** The routes are run as Express runs them: each middleware in turn until
    one answers. *)
Fixpoint run (chain : list Middleware) (db : option DB) (e : Env) (req : Request)
  : option DB * option Response :=
  match chain with
  | [] => (db, None)
  | m :: chain' =>
      match m db e req with
      | Done db' r => (db', Some r)
      | Next req' => run chain' db e req'
      end
  end.

(** ** The process environment and the library calls as JavaScript sees them *)

(** [process.env] after [dotenv] has loaded the .env file. *)
Record ProcessEnv := {
  JWT_SECRET : option string;
  PORT : option string
}.

(** [!process.env.X]: the variable is undefined or the empty string. *)
Definition unset (v : option string) : bool :=
  match v with
  | None => true
  | Some s => negb (truthy (VStr s))
  end.

Section Calls.
Context `{Libs}.

(** [ObjectId.isValid(id)] and [new ObjectId(id)] on a string. *)
Definition ObjectId_isValid (id : string) : bool :=
  match ObjectId_parse id with Some _ => true | None => false end.

Definition new_ObjectId (id : string) : Result ObjectId :=
  match ObjectId_parse id with
  | Some o => Ok o
  | None => Throw "input must be a 24 character hex string, 12 byte Uint8Array, or an integer"
  end.

(** [collection.findOne({ field: q })]. *)
Definition findOne_by (field : string) (q : Value) (c : Collection)
  : option (ObjectId * Obj) :=
  List.find (fun d => filter_match q (get d.2 field)) c.

(** [bcrypt.hash(data, rounds)]: rejects what is not a string. *)
Definition bcrypt_hash (data : Value) (rounds : N) (salt : string) : Result string :=
  match data with
  | VStr s => Ok (bcrypt_digest rounds salt s)
  | VUndefined | VNull => Throw "data and salt arguments required"
  | _ => Throw "data must be a string or Buffer and salt must either be a salt string or a number of rounds"
  end.

(** [bcrypt.compare(data, hash)]: rejects what is not a pair of strings. *)
Definition bcrypt_compare (data hash : Value) : Result bool :=
  match data, hash with
  | (VUndefined | VNull), _ | _, (VUndefined | VNull) =>
      Throw "data and hash arguments required"
  | VStr d, VStr h => Ok (bcrypt_check d h)
  | _, _ => Throw "data and hash must be strings"
  end.

(** [jwt.sign({ userId }, secret, { expiresIn })], [expiresIn] in seconds. *)
Definition jwt_sign (uid : ObjectId) (secret : option string) (expiresIn : N)
    (clock : N) : Result string :=
  match secret with
  | Some k =>
      if unset secret then Throw "secretOrPrivateKey must have a value"
      else Ok (jws_sign uid k clock (clock + expiresIn))
  | None => Throw "secretOrPrivateKey must have a value"
  end.

(** [jwt.verify(token, secret)]; [token] is a string or [undefined]. *)
Definition jwt_verify (token : option string) (secret : option string)
    (clock : N) : Result Claims :=
  match token with
  | None => Throw "jwt must be provided"
  | Some t =>
      if negb (truthy (VStr t)) then Throw "jwt must be provided"
      else match secret with
           | None => Throw "secret or public key must be provided"
           | Some k =>
               if unset secret then Throw "secret or public key must be provided"
               else match jws_verify t k clock with
                    | Some c => Ok c
                    | None => Throw "invalid token"
                    end
           end
  end.
End Calls.

(** [expiresIn: "1h"], in seconds. *)
Definition one_hour : N := 3600.

(** The two resources and what differs between their handlers. *)
Inductive Resource := Students | Courses.

Definition collection (r : Resource) (d : DB) : Collection :=
  match r with Students => students d | Courses => courses d end.

Definition with_collection (r : Resource) (d : DB) (c : Collection) : DB :=
  match r with
  | Students => {| users := users d; students := c; courses := courses d |}
  | Courses => {| users := users d; students := students d; courses := c |}
  end.

Definition with_users (d : DB) (c : Collection) : DB :=
  {| users := c; students := students d; courses := courses d |}.

Definition fields (r : Resource) : list string :=
  match r with
  | Students =>
      ["firstName"; "lastName"; "email"; "course"; "year"; "registrationNumber"]
  | Courses =>
      ["name"; "code"; "instructor"; "credits"; "semester"; "department"; "year"]
  end.

Definition noun (r : Resource) : string :=
  match r with Students => "student" | Courses => "course" end.

Definition Noun (r : Resource) : string :=
  match r with Students => "Student" | Courses => "Course" end.

(** [{ f1: req.body.f1, ..., fn: req.body.fn }]. *)
Definition picked (r : Resource) (body : Obj) : list (string * Value) :=
  map (fun k => (k, get body k)) (fields r).

(** [!o.f1 || ... || !o.fn]. *)
Definition incomplete (r : Resource) (o : Obj) : bool :=
  existsb (fun k => negb (truthy (get o k))) (fields r).

(** The routes. *)
Inductive Endpoint :=
| GetRoot
| PostRegister
| PostLogin
| GetAll (r : Resource)
| GetOne (r : Resource) (id : string)
| Post (r : Resource)
| Put (r : Resource) (id : string)
| Delete (r : Resource) (id : string).

(** The write routes on the two resources. *)
Definition resource_write (ep : Endpoint) : bool :=
  match ep with
  | Post _ | Put _ _ | Delete _ _ => true
  | _ => false
  end.

(** Some field among [fs] is absent from the body or falsy. *)
Definition lacks (fs : list string) (body : Obj) : Prop :=
  exists k, k ∈ fs /\ truthy (get body k) = false.

(** The user documents whose [email] is the string [em]. *)
Definition has_email (em : string) (d : ObjectId * Obj) : bool :=
  match get d.2 "email" with
  | VStr s => String.eqb s em
  | _ => false
  end.

(** The identifiers held by a collection, and the databases in which no
    collection holds an identifier twice. *)
Definition ids (c : Collection) : list ObjectId := c.*1.

Definition unique_ids (d : DB) : Prop :=
  NoDup (ids (users d)) /\ NoDup (ids (students d)) /\ NoDup (ids (courses d)).

(** What a request may do to the store, by the status code of its answer:
    nothing; one insert, answered 201; one replacement or one removal,
    answered 204. *)
Definition effect (db : option DB) (e : Env) (ep : Endpoint)
    (db' : option DB) (code : N) : Prop :=
  (db' = db /\ code <> 201%N /\ code <> 204%N) \/
  (exists d doc,
     db = Some d /\ code = 201%N /\
     ((ep = PostRegister /\ (fresh_id e ∉ ids (users d)) /\
       db' = Some (with_users d (users d ++ [(fresh_id e, doc)])%list)) \/
      (exists r, ep = Post r /\ (fresh_id e ∉ ids (collection r d)) /\
         db' = Some (with_collection r d
                       (collection r d ++ [(fresh_id e, doc)])%list)))) \/
  (exists d r id o doc,
     db = Some d /\ code = 204%N /\
     ((ep = Put r id /\
       db' = Some (with_collection r d (replaceOne o doc (collection r d)).1)) \/
      (ep = Delete r id /\
       db' = Some (with_collection r d (deleteOne o (collection r d)).1)))).

(** Is this the answer 201 of the registration route, and how many of them a
    run of requests got. *)
Definition registered (ep : Endpoint) (r : option Response) : bool :=
  match ep, r with
  | PostRegister, Some x => (status x =? 201)%N
  | _, _ => false
  end.

Fixpoint registrations (rs : list (Env * Endpoint * Request))
    (out : list (option Response)) : nat :=
  match rs, out with
  | (_, ep, _) :: rs', r :: out' =>
      ((if registered ep r then 1 else 0) + registrations rs' out')%nat
  | _, _ => 0%nat
  end.

(** The status codes each route can answer with. *)
Definition statuses (ep : Endpoint) : list N :=
  match ep with
  | GetRoot => [200]
  | PostRegister => [201; 400; 500]
  | PostLogin => [200; 401; 500]
  | GetAll _ => [200; 500]
  | GetOne _ _ => [200; 400; 404; 500]
  | Post _ => [201; 400; 401; 500]
  | Put _ _ | Delete _ _ => [204; 400; 401; 404; 500]
  end%N.

(** The process: it has exited, or it listens with the current [db]. *)
Inductive Process :=
| Exited (code : N)
| Listening (port : Value) (db : option DB).

(** What startup does that can be seen from outside. *)
Inductive Action :=
| Exit (code : N)
| Connect
| Listen (port : Value).

(** [process.env.PORT || 3000]. *)
Definition port_of (penv : ProcessEnv) : Value :=
  match PORT penv with
  | Some p => if unset (PORT penv) then VNum 3000 else VStr p
  | None => VNum 3000
  end.

(** ** The server of src/unnamed/part_000 *)

Module Api.
Section Handlers.
Context `{Libs} (penv : ProcessEnv).

(** [authMiddleware(req, res, next)]. *)
Definition authMiddleware : Middleware := fun db e req =>
  match authorization req with
  | None => Done db (json 401 (message "No token provided"))
  | Some authHeader =>
      if negb (truthy (VStr authHeader))
      then Done db (json 401 (message "No token provided"))
      else
        let token := split space authHeader !! 1%nat in
        match jwt_verify token (JWT_SECRET penv) (clock e) with
        | Ok decoded =>
            Next {| authorization := authorization req;
                    req_body := req_body req;
                    user := Some decoded |}
        | Throw _ => Done db (json 401 (message "Invalid token"))
        end
  end.

(** [GET /]. *)
Definition root : Middleware := fun db e req =>
  Done db (text "Student Management API is running").

(** [POST /auth/register]. *)
Definition register : Middleware := fun db e req =>
  try_catch db (
    let email := get (req_body req) "email" in
    let password := get (req_body req) "password" in
    if negb (truthy email) || negb (truthy password)
    then Ok (db, json 400 (message "Email and password required"))
    else
      d ← the_db db;
      match findOne_by "email" email (users d) with
      | Some existingUser => Ok (db, json 400 (message "User already exists"))
      | None =>
          hashedPassword ← bcrypt_hash password 10 (salt e);
          let user := obj [("email", email);
                           ("password", VStr hashedPassword);
                           ("createdAt", VDate (now e))] in
          users' ← insertOne (fresh_id e) user (users d);
          Ok (Some (with_users d users'),
              json 201 (VObj (obj [("message", VStr "User created");
                                   ("id", VId (fresh_id e))])))
      end).

(** [POST /auth/login]. *)
Definition login : Middleware := fun db e req =>
  try_catch db (
    let email := get (req_body req) "email" in
    let password := get (req_body req) "password" in
    d ← the_db db;
    match findOne_by "email" email (users d) with
    | None => Ok (db, json 401 (message "Invalid credentials"))
    | Some user =>
        isMatch ← bcrypt_compare password (get user.2 "password");
        if negb isMatch
        then Ok (db, json 401 (message "Invalid credentials"))
        else
          token ← jwt_sign user.1 (JWT_SECRET penv) one_hour (clock e);
          Ok (db, json 200 (VObj (obj [("token", VStr token)])))
    end).

(** [GET /students] and [GET /courses]. *)
Definition get_all (r : Resource) : Middleware := fun db e req =>
  try_catch db (
    d ← the_db db;
    Ok (db, json 200 (VArr (map document (collection r d))))).

(** [GET /students/:id] and [GET /courses/:id]. *)
Definition get_one (r : Resource) (id : string) : Middleware := fun db e req =>
  try_catch db (
    if negb (ObjectId_isValid id)
    then Ok (db, json 400 (message ("Invalid " ++ noun r ++ " ID")))
    else
      d ← the_db db;
      o ← new_ObjectId id;
      match findOne_id o (collection r d) with
      | None => Ok (db, json 404 (message (Noun r ++ " not found")))
      | Some doc => Ok (db, json 200 (document doc))
      end).

(** The object a POST builds: the picked fields, and for a student
    [createdAt: new Date()]. *)
Definition created (r : Resource) (e : Env) (body : Obj) : Obj :=
  match r with
  | Students => obj (picked r body ++ [("createdAt", VDate (now e))])%list
  | Courses => obj (picked r body)
  end.

(** [POST /students] and [POST /courses], behind the gate. *)
Definition post (r : Resource) : Middleware := fun db e req =>
  try_catch db (
    let doc := created r e (req_body req) in
    if incomplete r doc
    then Ok (db, json 400 (message "All fields are required"))
    else
      d ← the_db db;
      c' ← insertOne (fresh_id e) doc (collection r d);
      Ok (Some (with_collection r d c'),
          json 201 (VObj (obj [("message", VStr (Noun r ++ " created"));
                               ("id", VId (fresh_id e))])))).

(** [PUT /students/:id] and [PUT /courses/:id], behind the gate. *)
Definition put (r : Resource) (id : string) : Middleware := fun db e req =>
  try_catch db (
    if negb (ObjectId_isValid id)
    then Ok (db, json 400 (message ("Invalid " ++ noun r ++ " ID")))
    else
      let updated := obj (picked r (req_body req)) in
      if incomplete r updated
      then Ok (db, json 400 (message "All fields are required"))
      else
        d ← the_db db;
        o ← new_ObjectId id;
        let result := replaceOne o updated (collection r d) in
        if (result.2 =? 0)%N
        then Ok (Some (with_collection r d result.1),
                 json 404 (message (Noun r ++ " not found")))
        else Ok (Some (with_collection r d result.1), empty 204)).

(** [DELETE /students/:id] and [DELETE /courses/:id], behind the gate. *)
Definition delete (r : Resource) (id : string) : Middleware := fun db e req =>
  try_catch db (
    if negb (ObjectId_isValid id)
    then Ok (db, json 400 (message ("Invalid " ++ noun r ++ " ID")))
    else
      d ← the_db db;
      o ← new_ObjectId id;
      let result := deleteOne o (collection r d) in
      if (result.2 =? 0)%N
      then Ok (Some (with_collection r d result.1),
               json 404 (message (Noun r ++ " not found")))
      else Ok (Some (with_collection r d result.1), empty 204)).

(** The routing table: [app.get], [app.post], [app.put], [app.delete]. *)
Definition app (ep : Endpoint) : list Middleware :=
  match ep with
  | GetRoot => [root]
  | PostRegister => [register]
  | PostLogin => [login]
  | GetAll r => [get_all r]
  | GetOne r id => [get_one r id]
  | Post r => [authMiddleware; post r]
  | Put r id => [authMiddleware; put r id]
  | Delete r id => [authMiddleware; delete r id]
  end.

Definition handle (db : option DB) (e : Env) (ep : Endpoint) (req : Request)
  : option DB * option Response :=
  run (app ep) db e req.

(** The top of the file down to [startServer()]: the check on JWT_SECRET
    comes first; [connected] is what [client.connect()] yields, [None] when
    it fails (the failure is logged and the server listens all the same). *)
Definition startup_actions : list Action :=
  if unset (JWT_SECRET penv) then [Exit 1]
  else [Connect; Listen (port_of penv)].

Definition startup (connected : option DB) : Process :=
  if unset (JWT_SECRET penv) then Exited 1
  else Listening (port_of penv) connected.

(** One request against the process. *)
Definition serve (p : Process) (e : Env) (ep : Endpoint) (req : Request)
  : Process * option Response :=
  match p with
  | Exited code => (Exited code, None)
  | Listening port db =>
      let '(db', r) := handle db e ep req in (Listening port db', r)
  end.

(** A sequence of requests, one after the other. *)
Fixpoint serve_all (p : Process) (rs : list (Env * Endpoint * Request))
  : Process * list (option Response) :=
  match rs with
  | [] => (p, [])
  | (e, ep, req) :: rs' =>
      let '(p', r) := serve p e ep req in
      let '(p'', out) := serve_all p' rs' in
      (p'', r :: out)
  end.
End Handlers.
End Api.

(** ** Requests as they reach the routes *)

(** A request once [app.use(express.json())] has run: [req.body] is the parsed
    object, or [undefined] when nothing was parsed (Express 5 leaves it so for
    a request without a JSON body; Express 4 puts an empty object). *)
Record Incoming := {
  in_authorization : option string;
  in_body : option Obj
}.

(** The request with the object [b] as its body. *)
Definition parsed (inc : Incoming) (b : Obj) : Request :=
  {| authorization := in_authorization inc; req_body := b; user := None |}.

(** The message of the TypeError for [req.body.k] when [req.body] is
    undefined. *)
Definition reading (k : string) : string :=
  "Cannot read properties of undefined (reading '" ++ k ++ "')".

Section Receiving.
Context `{Libs} (penv : ProcessEnv).

(** A handler whose first statement inside [try] reads [req.body] while it is
    undefined: the TypeError is caught and answered 500. *)
Definition body_undefined (msg : string) : Middleware := fun db e req =>
  try_catch db (Throw msg).

(** PUT while [req.body] is undefined: the identifier is checked first, then
    the object literal reads [req.body] and throws. *)
Definition put_body_undefined (r : Resource) (id : string) : Middleware :=
  fun db e req =>
    try_catch db (
      if negb (ObjectId_isValid id)
      then Ok (db, json 400 (message ("Invalid " ++ noun r ++ " ID")))
      else Throw (reading (hd "" (fields r)))).

(** The chain that answers a request.  With a body it is the routing table;
    without one, the routes that read [req.body] throw where they first read
    it, and the others (GET, DELETE) run as they are. *)
Definition routes (ep : Endpoint) (inc : Incoming) : list Middleware :=
  match in_body inc with
  | Some _ => Api.app penv ep
  | None =>
      match ep with
      | PostRegister | PostLogin =>
          [body_undefined
             "Cannot destructure property 'email' of 'req.body' as it is undefined."]
      | Post r =>
          [Api.authMiddleware penv; body_undefined (reading (hd "" (fields r)))]
      | Put r id => [Api.authMiddleware penv; put_body_undefined r id]
      | _ => Api.app penv ep
      end
  end.

Definition receive (db : option DB) (e : Env) (ep : Endpoint) (inc : Incoming)
  : option DB * option Response :=
  run (routes ep inc) db e (parsed inc (default ∅ (in_body inc))).
End Receiving.

(** ** The older server of src/server.js *)

Module Legacy.
Section Handlers.
Context `{Libs} (penv : ProcessEnv).

(** [new require("mongodb").ObjectId(id)]: [new] applies to [require(...)],
    so [ObjectId] is called as a plain function. *)
Definition ObjectId_call (id : string) : Result ObjectId :=
  if ObjectId_callable then new_ObjectId id
  else Throw "Class constructor ObjectId cannot be invoked without 'new'".

(** [GET /]. *)
Definition root : Middleware := fun db e req =>
  Done db (text "Student Management API is running").

(** [GET /students]. *)
Definition get_students : Middleware := fun db e req =>
  try_catch db (
    d ← the_db db;
    Ok (db, json 200 (VArr (map document (students d))))).

(** [POST /students]: no gate in front of it. *)
Definition post_students : Middleware := fun db e req =>
  try_catch db (
    let student :=
      obj (picked Students (req_body req) ++ [("createdAt", VDate (now e))])%list in
    if incomplete Students student
    then Ok (db, json 400 (message "All fields are required"))
    else
      d ← the_db db;
      c' ← insertOne (fresh_id e) student (students d);
      Ok (Some (with_collection Students d c'),
          json 201 (VObj (obj [("message", VStr "Student created successfully");
                               ("id", VId (fresh_id e))])))).

(** [PUT /students/:id]: no gate and no [ObjectId.isValid]. *)
Definition put_students (id : string) : Middleware := fun db e req =>
  try_catch db (
    studentId ← ObjectId_call id;
    let updatedStudent := obj (picked Students (req_body req)) in
    if incomplete Students updatedStudent
    then Ok (db, json 400 (message "All fields are required"))
    else
      d ← the_db db;
      let result := replaceOne studentId updatedStudent (students d) in
      if (result.2 =? 0)%N
      then Ok (Some (with_collection Students d result.1),
               json 404 (message "Student not found"))
      else Ok (Some (with_collection Students d result.1), empty 204)).

(** [DELETE /students/:id]: no gate and no [ObjectId.isValid]. *)
Definition delete_students (id : string) : Middleware := fun db e req =>
  try_catch db (
    studentId ← ObjectId_call id;
    d ← the_db db;
    let result := deleteOne studentId (students d) in
    if (result.2 =? 0)%N
    then Ok (Some (with_collection Students d result.1),
             json 404 (message "Student not found"))
    else Ok (Some (with_collection Students d result.1), empty 204)).

(** The routing table; the other routes are not registered. *)
Definition app (ep : Endpoint) : list Middleware :=
  match ep with
  | GetRoot => [root]
  | GetAll Students => [get_students]
  | Post Students => [post_students]
  | Put Students id => [put_students id]
  | Delete Students id => [delete_students id]
  | _ => []
  end.

Definition handle (db : option DB) (e : Env) (ep : Endpoint) (req : Request)
  : option DB * option Response :=
  run (app ep) db e req.

(** Startup has no check on the environment. *)
Definition startup_actions : list Action := [Connect; Listen (port_of penv)].

Definition startup (connected : option DB) : Process :=
  Listening (port_of penv) connected.

Definition serve (p : Process) (e : Env) (ep : Endpoint) (req : Request)
  : Process * option Response :=
  match p with
  | Exited code => (Exited code, None)
  | Listening port db =>
      let '(db', r) := handle db e ep req in (Listening port db', r)
  end.
End Handlers.
End Legacy.

(** ** A reference instance of the libraries

    It follows the interfaces (24 hexadecimal digits for an ObjectId, the
    [$2b$rounds$...] layout of a digest, three dots in a token) with
    arithmetic in place of cryptography, so that the handlers can be run. *)

Module Ref.
Definition hex_digit (c : ascii) : option N :=
  let n := N_of_ascii c in
  if (48 <=? n)%N && (n <=? 57)%N then Some (n - 48)%N
  else if (97 <=? n)%N && (n <=? 102)%N then Some (n - 87)%N
  else if (65 <=? n)%N && (n <=? 70)%N then Some (n - 55)%N
  else None.

Fixpoint hex_value (acc : N) (s : string) : option N :=
  match s with
  | EmptyString => Some acc
  | String c s' =>
      match hex_digit c with
      | Some d => hex_value (16 * acc + d)%N s'
      | None => None
      end
  end.

(** bson 6: a string of 24 hexadecimal digits. *)
Definition parse (s : string) : option ObjectId :=
  if (String.length s =? 24)%nat then hex_value 0 s else None.

(** Equality of scalars; [null] also selects a missing field. *)
Definition scalar_match (q v : Value) : bool :=
  match q, v with
  | VStr a, VStr b => String.eqb a b
  | VNum a, VNum b => (a =? b)%Z
  | VBool a, VBool b => Bool.eqb a b
  | VDate a, VDate b => (a =? b)%N
  | VId a, VId b => (a =? b)%N
  | (VNull | VUndefined), (VNull | VUndefined) => true
  | _, _ => false
  end.

Definition dec (n : N) : string := NilEmpty.string_of_uint (N.to_uint n).
Definition undec (s : string) : option N :=
  N.of_uint <$> NilEmpty.uint_of_string s.

Definition digest (rounds : N) (salt data : string) : string :=
  "$2b$" ++ dec rounds ++ "$" ++ salt ++ "$" ++ data.

Definition check (data hash : string) : bool :=
  match split "$"%char hash with
  | _ :: _ :: _ :: _ :: rest => String.eqb (String.concat "$" rest) data
  | _ => false
  end.

(** A keyed tag standing for the signature. *)
Fixpoint tag (secret : string) : N :=
  match secret with
  | EmptyString => 7
  | String c s => (N_of_ascii c + 31 * tag s)%N
  end.

Definition sign (uid : ObjectId) (secret : string) (t0 t1 : N) : string :=
  dec uid ++ "." ++ dec t0 ++ "." ++ dec t1 ++ "." ++ dec (tag secret).

Definition verify (token secret : string) (clock : N) : option Claims :=
  if free_of space token then
    match split "."%char token with
    | [a; b; c; d] =>
        match undec a, undec b, undec c, undec d with
        | Some uid, Some t0, Some t1, Some g =>
            if (g =? tag secret)%N && (clock <? t1)%N
            then Some {| userId := uid; iat := t0; exp := t1 |}
            else None
        | _, _, _, _ => None
        end
    | _ => None
    end
  else None.
End Ref.

(** ** Sample data on which the handlers are evaluated *)

Module Sample.
Definition penv : ProcessEnv := {| JWT_SECRET := Some "s3cret"; PORT := None |}.
Definition no_secret : ProcessEnv := {| JWT_SECRET := None; PORT := Some "8080" |}.

Definition empty_db : DB := {| users := []; students := []; courses := [] |}.

Definition ada : Obj :=
  obj [("firstName", VStr "Ada"); ("lastName", VStr "Lovelace");
       ("email", VStr "ada@example.org"); ("course", VStr "Mathematics");
       ("year", VNum 2); ("registrationNumber", VStr "R-001");
       ("createdAt", VDate 1000%N)].

Definition logic : Obj :=
  obj [("name", VStr "Logic"); ("code", VStr "L1"); ("instructor", VStr "Boole");
       ("credits", VNum 5); ("semester", VStr "1"); ("department", VStr "Maths");
       ("year", VNum 1)].

Definition ada_id : ObjectId := 24912482966938930280208240657%N.
Definition ada_hex : string := "507f1f77bcf86cd799439011".
Definition other_hex : string := "507f1f77bcf86cd799439012".

Definition db : DB :=
  {| users := [(7%N, obj [("email", VStr "a@b.com");
                          ("password", VStr (Ref.digest 10%N "saltsaltsaltsaltsaltsa" "pw"));
                          ("createdAt", VDate 500%N)])];
     students := [(ada_id, ada)];
     courses := [(9%N, logic)] |}.

Definition env : Env :=
  {| now := 5000%N; fresh_id := 42%N; salt := "abcdefghijklmnopqrstuv" |}.

Definition request (header : option string) (body : list (string * Value)) : Request :=
  {| authorization := header; req_body := obj body; user := None |}.

Definition credentials : list (string * Value) :=
  [("email", VStr "a@b.com"); ("password", VStr "pw")].

Definition grace : list (string * Value) :=
  [("firstName", VStr "Grace"); ("lastName", VStr "Hopper");
   ("email", VStr "grace@example.org"); ("course", VStr "Compilers");
   ("year", VNum 3); ("registrationNumber", VStr "R-002")].

(** The token that [POST /auth/login] issues for user 7 at [env]. *)
Definition token : string := Ref.sign 7%N "s3cret" 5%N 3605%N.
End Sample.

(** ** Facts about strings and [split] *)

Lemma length_string_app (a b : string) :
  String.length (a ++ b) = (String.length a + String.length b)%nat.
Proof. induction a as [|x a IH]; simpl; [done|]. by rewrite IH. Qed.

Lemma free_of_app (c : ascii) (a b : string) :
  free_of c (a ++ b) = free_of c a && free_of c b.
Proof.
  induction a as [|x a IH]; simpl; [done|].
  rewrite IH. by destruct (Ascii.eqb x c).
Qed.

Lemma split_free (c : ascii) (a : string) :
  free_of c a = true -> split c a = [a].
Proof.
  induction a as [|x a IH]; simpl; [done|].
  destruct (Ascii.eqb x c); simpl; [done|].
  intros Ha. by rewrite IH.
Qed.

Lemma split_app_sep (c : ascii) (a b : string) :
  free_of c a = true -> split c (a ++ String c b) = a :: split c b.
Proof.
  induction a as [|x a IH]; simpl.
  - intros _. by rewrite Ascii.eqb_refl.
  - destruct (Ascii.eqb x c); simpl; [done|].
    intros Ha. by rewrite IH.
Qed.

(** The second component of ["<word> <token>".split(" ")] is the token. *)
Lemma split_word_token (word token : string) :
  free_of space word = true -> free_of space token = true ->
  split space (word ++ String space token) !! 1%nat = Some token.
Proof.
  intros Hw Ht. rewrite split_app_sep by done. by rewrite split_free.
Qed.

(** A string without a space has no second component. *)
Lemma split_no_space (s : string) :
  free_of space s = true -> split space s !! 1%nat = None.
Proof. intros Hs. by rewrite split_free. Qed.

(** ** The reference instance satisfies the interface *)

Module RefFacts.
Import Ref.

Definition is_digit (c : ascii) : bool :=
  (48 <=? N_of_ascii c)%N && (N_of_ascii c <=? 57)%N.

Lemma uint_digits (c : ascii) (d : Decimal.uint) :
  is_digit c = false -> free_of c (NilEmpty.string_of_uint d) = true.
Proof.
  intros Hc.
  assert (Hne : forall x, is_digit x = true -> Ascii.eqb x c = false).
  { intros x Hx. destruct (Ascii.eqb_spec x c); [congruence|done]. }
  induction d; cbn [NilEmpty.string_of_uint free_of]; [done|..];
    rewrite IHd, Hne; done.
Qed.

Lemma dec_free (c : ascii) (n : N) : is_digit c = false -> free_of c (dec n) = true.
Proof. apply uint_digits. Qed.

Lemma undec_dec (n : N) : undec (dec n) = Some n.
Proof.
  unfold undec, dec. rewrite NilEmpty.usu. simpl.
  by rewrite DecimalN.Unsigned.of_to.
Qed.

Lemma digest_not_plain (rounds : N) (salt data : string) :
  digest rounds salt data <> data.
Proof.
  intros Heq. apply (f_equal String.length) in Heq.
  unfold digest in Heq. rewrite !length_string_app in Heq.
  simpl in Heq. lia.
Qed.

Lemma verify_sign (uid : ObjectId) (secret : string) (t0 t1 clock : N) :
  verify (sign uid secret t0 t1) secret clock =
  if (clock <? t1)%N then Some {| userId := uid; iat := t0; exp := t1 |}
  else None.
Proof.
  unfold verify, sign.
  assert (Hdot : forall a b, a ++ "." ++ b = a ++ String "."%char b) by done.
  rewrite !Hdot.
  assert (Hsp : forall n r, free_of space (dec n ++ String "."%char r)
                            = free_of space r).
  { intros n r. rewrite free_of_app, dec_free by done. done. }
  rewrite !Hsp, dec_free by done.
  rewrite (split_app_sep _ (dec uid)) by (by apply dec_free).
  rewrite (split_app_sep _ (dec t0)) by (by apply dec_free).
  rewrite (split_app_sep _ (dec t1)) by (by apply dec_free).
  rewrite split_free by (by apply dec_free).
  rewrite !undec_dec, N.eqb_refl. done.
Qed.

Lemma verify_shape (token secret : string) (clock : N) (c : Claims) :
  verify token secret clock = Some c ->
  token <> "" /\ free_of space token = true.
Proof.
  intros Hv. split.
  - intros ->. discriminate Hv.
  - unfold verify in Hv. by destruct (free_of space token).
Qed.
End RefFacts.

(** The instance, for either kind of [ObjectId] constructor. *)
Definition ref_with (callable : bool) : Libs := {|
  ObjectId_parse := Ref.parse;
  ObjectId_callable := callable;
  filter_match := Ref.scalar_match;
  filter_match_str := fun a b => eq_refl;
  bcrypt_digest := Ref.digest;
  bcrypt_check := Ref.check;
  bcrypt_digest_not_plain := RefFacts.digest_not_plain;
  jws_sign := Ref.sign;
  jws_verify := Ref.verify;
  jws_verify_sign := RefFacts.verify_sign;
  jws_verify_shape := RefFacts.verify_shape
|}.

#[export] Instance ref_libs : Libs := ref_with false.

(** ** The handlers at work *)

Example split_bearer : split space "Bearer abc.def.ghi" = ["Bearer"; "abc.def.ghi"].
Proof. reflexivity. Qed.

Example split_two_spaces : split space "a  b" = ["a"; ""; "b"].
Proof. reflexivity. Qed.

Example split_empty : split space "" = [""].
Proof. reflexivity. Qed.

(** Register, log in, create a student with the token, read it, delete it,
    read it again. *)
Example end_to_end :
  let id := Sample.other_hex in
  let env t o := {| now := t; fresh_id := o; salt := "abcdefghijklmnopqrstuv" |} in
  let bearer := Some ("Bearer " ++ Ref.sign 1%N "s3cret" 5%N 3605%N) in
  map (fun r => status <$> r)
    (Api.serve_all Sample.penv (Api.startup Sample.penv (Some Sample.empty_db))
       [(env 5000%N 1%N, PostRegister, Sample.request None Sample.credentials);
        (env 5500%N 2%N, PostLogin, Sample.request None Sample.credentials);
        (env 6000%N 24912482966938930280208240658%N, Post Students,
         Sample.request bearer Sample.grace);
        (env 6500%N 3%N, GetOne Students id, Sample.request None []);
        (env 7000%N 4%N, Delete Students id, Sample.request bearer []);
        (env 7500%N 5%N, GetOne Students id, Sample.request None [])]).2
  = [Some 201; Some 200; Some 201; Some 200; Some 204; Some 404]%N.
Proof. vm_compute. reflexivity. Qed.

(** ** Facts about the store *)

Lemma with_collection_same (r : Resource) (d : DB) :
  with_collection r d (collection r d) = d.
Proof. by destruct r, d. Qed.

Lemma collection_with_collection (r : Resource) (d : DB) (c : Collection) :
  collection r (with_collection r d c) = c.
Proof. by destruct r. Qed.

Lemma find_none_replaceOne (o : ObjectId) (doc : Obj) (c : Collection) :
  findOne_id o c = None -> replaceOne o doc c = (c, 0%N).
Proof.
  unfold findOne_id. induction c as [|d c IH]; simpl; [done|].
  destruct (has_id o d); [done|]. intros Hc. by rewrite IH.
Qed.

Lemma find_none_deleteOne (o : ObjectId) (c : Collection) :
  findOne_id o c = None -> deleteOne o c = (c, 0%N).
Proof.
  unfold findOne_id. induction c as [|d c IH]; simpl; [done|].
  destruct (has_id o d); [done|]. intros Hc. by rewrite IH.
Qed.

Lemma replaceOne_found (o : ObjectId) (doc : Obj) (c : Collection)
    (old : ObjectId * Obj) :
  findOne_id o c = Some old -> (replaceOne o doc c).2 = 1%N.
Proof.
  unfold findOne_id. induction c as [|d c IH]; simpl; [done|].
  destruct (has_id o d); [done|]. intros Hc.
  destruct (replaceOne o doc c) as [c' n]. simpl in *. by apply IH.
Qed.

Lemma replaceOne_length (o : ObjectId) (doc : Obj) (c : Collection) :
  length (replaceOne o doc c).1 = length c.
Proof.
  induction c as [|d c IH]; simpl; [done|].
  destruct (has_id o d); simpl; [done|].
  destruct (replaceOne o doc c) as [c' n]. simpl in *. by rewrite IH.
Qed.

Lemma replaceOne_matched (o : ObjectId) (doc : Obj) (c : Collection) :
  (replaceOne o doc c).2 <> 0%N ->
  findOne_id o (replaceOne o doc c).1 = Some (o, doc).
Proof.
  unfold findOne_id. induction c as [|d c IH]; simpl; [done|].
  destruct (has_id o d) eqn:Hd; simpl.
  - intros _. unfold has_id in *. simpl. rewrite Hd.
    apply N.eqb_eq in Hd. by rewrite Hd.
  - destruct (replaceOne o doc c) as [c' n]. simpl in *.
    rewrite Hd. apply IH.
Qed.

Lemma replaceOne_other (o o' : ObjectId) (doc : Obj) (c : Collection) :
  o' <> o -> findOne_id o' (replaceOne o doc c).1 = findOne_id o' c.
Proof.
  intros Hne. unfold findOne_id. induction c as [|d c IH]; simpl; [done|].
  destruct (has_id o d) eqn:Hd; simpl.
  - unfold has_id in *. simpl. apply N.eqb_eq in Hd. rewrite Hd.
    by destruct (N.eqb_spec o o').
  - destruct (replaceOne o doc c) as [c' n]. simpl in *. by rewrite IH.
Qed.

(** ** Facts about the gate *)

Lemma truthy_str (s : string) : truthy (VStr s) = true <-> s <> "".
Proof.
  simpl. destruct (String.eqb_spec s ""); simpl; split; congruence.
Qed.

Section Gate.
Context `{Libs} (penv : ProcessEnv).


Lemma gate_bad_token db e req h msg :
  authorization req = Some h -> h <> "" ->
  jwt_verify (split space h !! 1%nat) (JWT_SECRET penv) (clock e) = Throw msg ->
  Api.authMiddleware penv db e req =
  Done db (json 401 (message "Invalid token")).
Proof.
  intros Hh Hne Hv. unfold Api.authMiddleware. rewrite Hh.
  apply truthy_str in Hne. rewrite Hne. simpl negb. cbv iota.
  by rewrite Hv.
Qed.

Lemma gate_good_token db e req h c :
  authorization req = Some h -> h <> "" ->
  jwt_verify (split space h !! 1%nat) (JWT_SECRET penv) (clock e) = Ok c ->
  Api.authMiddleware penv db e req =
  Next {| authorization := authorization req; req_body := req_body req;
          user := Some c |}.
Proof.
  intros Hh Hne Hv. unfold Api.authMiddleware. rewrite Hh.
  apply truthy_str in Hne. rewrite Hne. simpl negb. cbv iota.
  by rewrite Hv.
Qed.

(** A rejection by the gate is the answer of every gated route. *)
Lemma gated_route db e ep req db' r :
  resource_write ep = true ->
  Api.authMiddleware penv db e req = Done db' r ->
  Api.handle penv db e ep req = (db', Some r).
Proof.
  intros Hep Hg. unfold Api.handle.
  destruct ep; try discriminate Hep; simpl; by rewrite Hg.
Qed.
End Gate.

(** ** The gate in front of the write routes *)




(** C9, as amended: the gate never looks at the scheme.  A header
    ["<word> <token>"] whose word holds no space and whose token passes
    [jwt.verify] is admitted whatever the word is, with the decoded claims as
    [req.user]; a header that is not empty and holds no space is answered 401
    [{ message: "Invalid token" }] on every gated route, since the split has no
    second component. *)
Theorem gate_ignores_scheme `{Libs} (penv : ProcessEnv)
    (db : option DB) (e : Env) (req : Request) :
  (forall word token c,
     authorization req = Some (word ++ String space token) ->
     free_of space word = true ->
     jwt_verify (Some token) (JWT_SECRET penv) (clock e) = Ok c ->
     Api.authMiddleware penv db e req =
     Next {| authorization := authorization req; req_body := req_body req;
             user := Some c |}) /\
  (forall h ep,
     authorization req = Some h -> h <> "" -> free_of space h = true ->
     resource_write ep = true ->
     Api.handle penv db e ep req =
     (db, Some (json 401 (message "Invalid token")))).
Proof.
  split.
  - intros word token c Hh Hw Hv.
    assert (Ht : free_of space token = true).
    { unfold jwt_verify in Hv.
      destruct (negb (truthy (VStr token))); [done|].
      destruct (JWT_SECRET penv) as [k|]; [|done].
      destruct (unset (Some k)); [done|].
      destruct (jws_verify token k (clock e)) as [c'|] eqn:Hj; [|done].
      by destruct (jws_verify_shape _ _ _ _ Hj). }
    apply gate_good_token with (word ++ String space token); [done|..].
    + by destruct word.
    + by rewrite split_word_token.
  - intros h ep Hh Hne Hfree Hep.
    apply gated_route; [done|].
    apply gate_bad_token with h "jwt must be provided"; [done..|].
    by rewrite split_no_space.
Qed.

Lemma gate_ignores_scheme_witness :
  Api.authMiddleware Sample.penv (Some Sample.db) Sample.env
    (Sample.request (Some ("Basic " ++ Sample.token)) Sample.grace) =
  Next {| authorization := Some ("Basic " ++ Sample.token);
          req_body := obj Sample.grace;
          user := Some {| userId := 7%N; iat := 5%N; exp := 3605%N |} |} /\
  Api.handle Sample.penv (Some Sample.db) Sample.env (Post Students)
    (Sample.request (Some "Bearer") Sample.grace) =
  (Some Sample.db, Some (json 401 (message "Invalid token"))).
Proof.
  split.
  - apply (proj1 (gate_ignores_scheme Sample.penv (Some Sample.db) Sample.env
                    (Sample.request (Some ("Basic " ++ Sample.token)) Sample.grace))
             "Basic" Sample.token).
    + reflexivity.
    + reflexivity.
    + vm_compute. reflexivity.
  - apply (proj2 (gate_ignores_scheme Sample.penv (Some Sample.db) Sample.env
                    (Sample.request (Some "Bearer") Sample.grace))
             "Bearer" (Post Students)).
    + reflexivity.
    + discriminate.
    + reflexivity.
    + reflexivity.
Defined.

(** C9 as stated fails for the empty header: it holds no space, and the answer
    is [{ message: "No token provided" }], since [!authHeader] is true for the
    empty string. *)
Lemma empty_header_is_no_token :
  let out := Api.handle Sample.penv (Some Sample.db) Sample.env (Post Students)
               (Sample.request (Some "") Sample.grace) in
  free_of space "" = true /\
  out = (Some Sample.db, Some (json 401 (message "No token provided"))) /\
  out <> (Some Sample.db, Some (json 401 (message "Invalid token"))).
Proof.
  split; [done|]. split; [done|].
  intros Heq.
  apply (f_equal (fun o => match o.2 with
                           | Some {| sent := Json (VObj m) |} => m !! "message"
                           | _ => None
                           end)) in Heq.
  vm_compute in Heq. discriminate Heq.
Qed.

(** ** Login *)

Section Login.
Context `{Libs} (penv : ProcessEnv).

Lemma login_unknown_email d e req :
  findOne_by "email" (get (req_body req) "email") (users d) = None ->
  Api.handle penv (Some d) e PostLogin req =
  (Some d, Some (json 401 (message "Invalid credentials"))).
Proof.
  intros Hf. unfold Api.handle, Api.app, run, Api.login. simpl.
  by rewrite Hf.
Qed.

Lemma login_wrong_password d e req u :
  findOne_by "email" (get (req_body req) "email") (users d) = Some u ->
  bcrypt_compare (get (req_body req) "password") (get u.2 "password") = Ok false ->
  Api.handle penv (Some d) e PostLogin req =
  (Some d, Some (json 401 (message "Invalid credentials"))).
Proof.
  intros Hf Hc. unfold Api.handle, Api.app, run, Api.login. simpl.
  rewrite Hf. simpl. by rewrite Hc.
Qed.

(** Every answer of the login route: the uniform 401, a 500 carrying the
    message of a library error, or 200 with a token signed for the [_id] of
    the stored user, the secret and the clock. *)
Lemma login_cases d e req :
  exists r, Api.handle penv (Some d) e PostLogin req = (Some d, Some r) /\
  (r = json 401 (message "Invalid credentials") \/
   (exists msg, r = json 500 (error msg) /\
      msg ∈ ["data and hash arguments required"; "data and hash must be strings";
             "secretOrPrivateKey must have a value"]) \/
   (exists u k,
      findOne_by "email" (get (req_body req) "email") (users d) = Some u /\
      JWT_SECRET penv = Some k /\ k <> "" /\
      r = json 200 (VObj (obj [("token",
            VStr (jws_sign u.1 k (clock e) (clock e + one_hour)))])))).
Proof.
  unfold Api.handle, Api.app, run, Api.login. simpl.
  destruct (findOne_by _ _ _) as [u|] eqn:Hf; simpl; [|eauto].
  destruct (bcrypt_compare _ _) as [b|msg] eqn:Hc; simpl.
  - destruct b; simpl; [|eauto].
    unfold jwt_sign. destruct (JWT_SECRET penv) as [k|] eqn:Hk; simpl.
    + destruct (negb (negb (k =? ""))%string) eqn:Hk0; simpl.
      * eexists; split; [done|]. right; left. eexists; split; [done|].
        set_solver.
      * eexists; split; [done|]. right; right. exists u, k.
        repeat split; try done.
        intros ->. done.
    + eexists; split; [done|]. right; left. eexists; split; [done|].
      set_solver.
  - eexists; split; [done|]. right; left. exists msg; split; [done|].
    unfold bcrypt_compare in Hc.
    destruct (get (req_body req) "password"), (get u.2 "password");
      simplify_eq; set_solver.
Qed.

Lemma token_inj (a b : string) :
  obj [("token", VStr a)] = obj [("token", VStr b)] -> a = b.
Proof.
  intros Heq. apply (f_equal (fun m : Obj => m !! "token")) in Heq.
  unfold obj in Heq. simpl in Heq. rewrite !lookup_insert_eq in Heq.
  congruence.
Qed.

(** What a 200 from the login route tells. *)
Lemma login_issued d e req tok :
  (Api.handle penv (Some d) e PostLogin req).2 =
  Some (json 200 (VObj (obj [("token", VStr tok)]))) ->
  exists u k,
    JWT_SECRET penv = Some k /\ k <> "" /\
    tok = jws_sign u k (clock e) (clock e + one_hour).
Proof.
  destruct (login_cases d e req) as (r & -> & Hr). simpl. intros [= ->].
  destruct Hr as [Hr | [(msg & Hr & _) | (u & k & _ & Hk & Hne & Hr)]].
  - discriminate Hr.
  - discriminate Hr.
  - apply (f_equal payload) in Hr. apply token_inj in Hr. eauto.
Qed.
End Login.

(** When [bcrypt.compare] returns false, the two failures of a login (no user
    is found for the email; a user is found and the password does not match)
    are answered alike, 401 [{ message: "Invalid credentials" }]. *)
Theorem login_failures_are_uniform `{Libs} (penv : ProcessEnv)
    (d1 d2 : DB) (e1 e2 : Env) (req1 req2 : Request) (u : ObjectId * Obj) :
  findOne_by "email" (get (req_body req1) "email") (users d1) = None ->
  findOne_by "email" (get (req_body req2) "email") (users d2) = Some u ->
  bcrypt_compare (get (req_body req2) "password") (get u.2 "password") = Ok false ->
  (Api.handle penv (Some d1) e1 PostLogin req1).2 =
    Some (json 401 (message "Invalid credentials")) /\
  (Api.handle penv (Some d2) e2 PostLogin req2).2 =
    Some (json 401 (message "Invalid credentials")) /\
  (Api.handle penv (Some d1) e1 PostLogin req1).2 =
    (Api.handle penv (Some d2) e2 PostLogin req2).2.
Proof.
  intros Hnone Hsome Hcmp.
  rewrite (login_unknown_email penv d1 e1 req1 Hnone).
  rewrite (login_wrong_password penv d2 e2 req2 u Hsome Hcmp).
  done.
Qed.

Lemma login_failures_are_uniform_witness :
  let unknown := Sample.request None [("email", VStr "nobody@b.com");
                                       ("password", VStr "pw")] in
  let wrong := Sample.request None [("email", VStr "a@b.com");
                                     ("password", VStr "guess")] in
  (Api.handle Sample.penv (Some Sample.empty_db) Sample.env PostLogin unknown).2 =
    Some (json 401 (message "Invalid credentials")) /\
  (Api.handle Sample.penv (Some Sample.db) Sample.env PostLogin wrong).2 =
    Some (json 401 (message "Invalid credentials")) /\
  (Api.handle Sample.penv (Some Sample.empty_db) Sample.env PostLogin unknown).2 =
    (Api.handle Sample.penv (Some Sample.db) Sample.env PostLogin wrong).2.
Proof.
  intros unknown wrong.
  apply (login_failures_are_uniform Sample.penv Sample.empty_db Sample.db
           Sample.env Sample.env unknown wrong
           (7%N, obj [("email", VStr "a@b.com");
                      ("password", VStr (Ref.digest 10%N "saltsaltsaltsaltsaltsa" "pw"));
                      ("createdAt", VDate 500%N)])).
  - reflexivity.
  - vm_compute. reflexivity.
  - vm_compute. reflexivity.
Defined.

(** C4 fails on the code.  The login route compares whatever the body holds
    under [password], without the check on presence that the registration
    route makes.  For a body with an email and no password, an email that
    selects no user is answered 401 [{ message: "Invalid credentials" }],
    while an email that selects a user makes [bcrypt.compare] throw and is
    answered 500 with the message of the error: the two answers differ, so
    the answer tells whether the email is registered. *)
Theorem login_missing_password_tells_user :
  let unknown := Sample.request None [("email", VStr "nobody@b.com")] in
  let known := Sample.request None [("email", VStr "a@b.com")] in
  let answer req :=
    (Api.handle Sample.penv (Some Sample.db) Sample.env PostLogin req).2 in
  findOne_by "email" (get (req_body unknown) "email") (users Sample.db) = None /\
  findOne_by "email" (get (req_body known) "email") (users Sample.db) <> None /\
  answer unknown = Some (json 401 (message "Invalid credentials")) /\
  answer known = Some (json 500 (error "data and hash arguments required")) /\
  answer known <> answer unknown.
Proof.
  intros unknown known answer.
  split; [done|]. split; [done|]. split; [done|]. split; [done|].
  intros Heq. apply (f_equal (fun o => status <$> o)) in Heq.
  vm_compute in Heq. discriminate Heq.
Qed.

(** ** The lifetime of a token *)

Lemma issued_token_verifies `{Libs} (uid : ObjectId) (k : string) (t0 t1 clk : N) :
  k <> "" -> (0 < t1)%N ->
  free_of space (jws_sign uid k t0 t1) = true /\
  jwt_verify (Some (jws_sign uid k t0 t1)) (Some k) clk =
  if (clk <? t1)%N then Ok {| userId := uid; iat := t0; exp := t1 |}
  else Throw "invalid token".
Proof.
  intros Hk Ht1.
  assert (Hshape : jws_sign uid k t0 t1 <> "" /\
                   free_of space (jws_sign uid k t0 t1) = true).
  { apply (jws_verify_shape _ k 0%N {| userId := uid; iat := t0; exp := t1 |}).
    rewrite jws_verify_sign. by destruct (N.ltb_spec 0 t1); [|lia]. }
  destruct Hshape as [Hne Hfree]. split; [done|].
  unfold jwt_verify, unset.
  apply truthy_str in Hne, Hk. rewrite Hne, Hk. simpl.
  rewrite jws_verify_sign. by destruct (clk <? t1)%N.
Qed.

(** C7, as amended: a token issued by the login route expires 3600 seconds
    after the second of its issuance, on the clock of jsonwebtoken, which
    counts whole seconds.  Presented as ["Bearer <token>"], it is passed by the
    gate while [floor(now / 1000) < floor(t0 / 1000) + 3600], and from then on
    every gated route answers 401 [{ message: "Invalid token" }].  In
    milliseconds: every request made at most 3 599 000 ms after the login is
    passed, every request made 3 600 000 ms after it or later is refused, and
    in between the answer depends on the fraction of a second at which the
    login fell. *)
Theorem token_lives_one_hour `{Libs} (penv : ProcessEnv) (d : DB) (e0 : Env)
    (login_req : Request) (tok : string)
    (db : option DB) (e : Env) (req : Request) :
  (Api.handle penv (Some d) e0 PostLogin login_req).2 =
    Some (json 200 (VObj (obj [("token", VStr tok)]))) ->
  authorization req = Some ("Bearer " ++ tok) ->
  let passed :=
    exists c,
      exp c = (clock e0 + one_hour)%N /\
      Api.authMiddleware penv db e req =
      Next {| authorization := authorization req; req_body := req_body req;
              user := Some c |} in
  let refused :=
    forall ep, resource_write ep = true ->
      Api.handle penv db e ep req =
      (db, Some (json 401 (message "Invalid token"))) in
  ((clock e < clock e0 + one_hour)%N -> passed) /\
  ((clock e0 + one_hour <= clock e)%N -> refused) /\
  ((now e <= now e0 + 3599000)%N -> passed) /\
  ((now e0 + 3600000 <= now e)%N -> refused).
Proof.
  intros Hlogin Hh passed refused.
  destruct (login_issued penv d e0 login_req tok Hlogin) as (u & k & Hk & Hne & ->).
  destruct (issued_token_verifies u k (clock e0) (clock e0 + one_hour) (clock e))
    as [Hfree Hv]; [done|unfold one_hour; lia|].
  assert (Hsplit : split space ("Bearer " ++ jws_sign u k (clock e0) (clock e0 + one_hour))
                   !! 1%nat = Some (jws_sign u k (clock e0) (clock e0 + one_hour))).
  { by apply (split_word_token "Bearer"). }
  assert (Hpass : (clock e < clock e0 + one_hour)%N -> passed).
  { intros Hlt. eexists. split; [|eapply gate_good_token; [done|done|]].
    2:{ rewrite Hsplit, Hk, Hv. apply N.ltb_lt in Hlt. by rewrite Hlt. }
    done. }
  assert (Hrefuse : (clock e0 + one_hour <= clock e)%N -> refused).
  { intros Hge ep Hep. apply gated_route; [done|].
    eapply gate_bad_token; [done|done|].
    rewrite Hsplit, Hk, Hv. apply N.ltb_ge in Hge. by rewrite Hge. }
  split; [done|]. split; [done|]. unfold clock, one_hour in *. split.
  - intros Hms. apply Hpass.
    assert ((now e / 1000 <= (now e0 + 3599 * 1000) / 1000)%N)
      by (apply N.Div0.div_le_mono; lia).
    rewrite N.div_add in H0 by done. lia.
  - intros Hms. apply Hrefuse.
    assert (((now e0 + 3600 * 1000) / 1000 <= now e / 1000)%N)
      by (apply N.Div0.div_le_mono; lia).
    rewrite N.div_add in H0 by done. lia.
Qed.

Lemma token_lives_one_hour_witness :
  let bearer := Sample.request (Some ("Bearer " ++ Sample.token)) Sample.grace in
  let early := {| now := 3604000%N; fresh_id := 43%N; salt := "" |} in
  let late := {| now := 3605000%N; fresh_id := 43%N; salt := "" |} in
  (exists c, exp c = (clock Sample.env + one_hour)%N /\
     Api.authMiddleware Sample.penv (Some Sample.db) early bearer =
     Next {| authorization := authorization bearer; req_body := req_body bearer;
             user := Some c |}) /\
  Api.handle Sample.penv (Some Sample.db) late (Post Students) bearer =
  (Some Sample.db, Some (json 401 (message "Invalid token"))).
Proof.
  intros bearer early late.
  assert (Hlogin :
    (Api.handle Sample.penv (Some Sample.db) Sample.env PostLogin
       (Sample.request None Sample.credentials)).2 =
    Some (json 200 (VObj (obj [("token", VStr Sample.token)])))).
  { vm_compute. reflexivity. }
  split.
  - apply (proj1 (proj2 (proj2 (token_lives_one_hour Sample.penv Sample.db
                    Sample.env (Sample.request None Sample.credentials)
                    Sample.token (Some Sample.db) early bearer Hlogin eq_refl)))).
    vm_compute. discriminate.
  - apply (proj1 (proj2 (token_lives_one_hour Sample.penv Sample.db Sample.env
                    (Sample.request None Sample.credentials) Sample.token
                    (Some Sample.db) late bearer Hlogin eq_refl))).
    + vm_compute. discriminate.
    + reflexivity.
Defined.

(** C7 as stated fails within the last second: a token issued at 5999 ms is
    refused at 3 605 000 ms, which is 3 599 001 ms, less than one hour, after
    its issuance. *)
Lemma token_refused_within_the_hour :
  let issue := {| now := 5999%N; fresh_id := 43%N; salt := "" |} in
  let use := {| now := 3605000%N; fresh_id := 43%N; salt := "" |} in
  let bearer := Sample.request (Some ("Bearer " ++ Sample.token)) Sample.grace in
  (Api.handle Sample.penv (Some Sample.db) issue PostLogin
     (Sample.request None Sample.credentials)).2 =
    Some (json 200 (VObj (obj [("token", VStr Sample.token)]))) /\
  (now use - now issue < 3600000)%N /\
  Api.handle Sample.penv (Some Sample.db) use (Post Students) bearer =
  (Some Sample.db, Some (json 401 (message "Invalid token"))).
Proof. vm_compute. done. Qed.

(** ** The object literals of the resource routes *)

Lemma lookup_obj_map (f : string -> Value) (keys : list string)
    (rest : list (string * Value)) (k : string) :
  k ∈ keys ->
  obj (map (fun k => (k, f k)) keys ++ rest)%list !! k = Some (f k).
Proof.
  unfold obj. induction keys as [|k0 keys IH]; simpl.
  - by intros ?%elem_of_nil.
  - intros Hk. destruct (decide (k0 = k)) as [->|Hne].
    + by rewrite lookup_insert_eq.
    + rewrite lookup_insert_ne by done. apply IH.
      apply elem_of_cons in Hk. by destruct Hk as [->|].
Qed.

Lemma get_picked (r : Resource) (body : Obj) (rest : list (string * Value))
    (k : string) :
  k ∈ fields r -> get (obj (picked r body ++ rest)%list) k = get body k.
Proof.
  intros Hk. unfold get at 1, picked.
  by rewrite (lookup_obj_map (get body)).
Qed.

Lemma lookup_picked_other (r : Resource) (body : Obj) (k : string) :
  k ∉ fields r -> obj (picked r body) !! k = None.
Proof.
  intros Hk. unfold obj, picked. apply not_elem_of_list_to_map_1.
  by rewrite <- list_fmap_compose, list_fmap_id.
Qed.

Lemma existsb_agree {A} (f g : A -> bool) (l : list A) :
  (forall x, x ∈ l -> f x = g x) -> existsb f l = existsb g l.
Proof.
  induction l as [|x l IH]; simpl; [done|].
  intros Hfg. rewrite Hfg by (apply elem_of_cons; by left).
  rewrite IH; [done|]. intros y Hy. apply Hfg. apply elem_of_cons. by right.
Qed.

Lemma incomplete_picked (r : Resource) (body : Obj) (rest : list (string * Value)) :
  incomplete r (obj (picked r body ++ rest)%list) = incomplete r body.
Proof.
  unfold incomplete. apply existsb_agree. intros k Hk.
  by rewrite get_picked.
Qed.

Lemma incomplete_updated (r : Resource) (body : Obj) :
  incomplete r (obj (picked r body)) = incomplete r body.
Proof.
  rewrite <- (incomplete_picked r body []). by rewrite app_nil_r.
Qed.

Lemma incomplete_created (r : Resource) (e : Env) (body : Obj) :
  incomplete r (Api.created r e body) = incomplete r body.
Proof.
  destruct r; unfold Api.created.
  - apply incomplete_picked.
  - apply incomplete_updated.
Qed.

Lemma lacks_incomplete (r : Resource) (body : Obj) :
  lacks (fields r) body <-> incomplete r body = true.
Proof.
  unfold lacks, incomplete. rewrite existsb_exists. split.
  - intros (k & Hk & Hf). exists k. rewrite <- list_elem_of_In, Hf. done.
  - intros (k & Hk & Hf). exists k. rewrite list_elem_of_In.
    by destruct (truthy (get body k)).
Qed.

Lemma complete_lookup (r : Resource) (body : Obj) (k : string) :
  incomplete r body = false -> k ∈ fields r ->
  body !! k = Some (get body k) /\ truthy (get body k) = true.
Proof.
  intros Hc Hk. unfold incomplete in Hc.
  assert (Ht : truthy (get body k) = true).
  { destruct (truthy (get body k)) eqn:Ht; [done|].
    assert (existsb (fun k => negb (truthy (get body k))) (fields r) = true);
      [|congruence].
    apply existsb_exists. exists k. rewrite <- list_elem_of_In, Ht. done. }
  split; [|done]. unfold get in *. by destruct (body !! k).
Qed.

(** ** The gate passes a request on unchanged but for [req.user] *)

Section Passing.
Context `{Libs} (penv : ProcessEnv).

Lemma gate_done db e req db' r :
  Api.authMiddleware penv db e req = Done db' r ->
  db' = db /\ status r = 401%N.
Proof.
  unfold Api.authMiddleware.
  destruct (authorization req) as [h|]; [|by intros [= <- <-]].
  destruct (negb (truthy (VStr h))); [by intros [= <- <-]|].
  destruct (jwt_verify _ _ _); [done|by intros [= <- <-]].
Qed.

Lemma gate_next db e req req' :
  Api.authMiddleware penv db e req = Next req' ->
  req_body req' = req_body req.
Proof.
  unfold Api.authMiddleware.
  destruct (authorization req) as [h|]; [|done].
  destruct (negb (truthy (VStr h))); [done|].
  destruct (jwt_verify _ _ _); [by intros [= <-]|done].
Qed.
End Passing.

(** ** Validation of the body *)

(** A body that lacks a required field (absent or falsy) is answered 400 and
    nothing is written. *)
Lemma lacking_body_is_rejected `{Libs} (penv : ProcessEnv)
    (db : option DB) (e : Env) (req : Request) :
  (lacks ["email"; "password"] (req_body req) ->
   Api.handle penv db e PostRegister req =
   (db, Some (json 400 (message "Email and password required")))) /\
  (forall r req',
     lacks (fields r) (req_body req) ->
     Api.authMiddleware penv db e req = Next req' ->
     Api.handle penv db e (Post r) req =
       (db, Some (json 400 (message "All fields are required"))) /\
     (forall id, ObjectId_isValid id = true ->
        Api.handle penv db e (Put r id) req =
        (db, Some (json 400 (message "All fields are required"))))) /\
  (forall r id,
     lacks (fields r) (req_body req) ->
     (Api.handle penv db e (Post r) req).1 = db /\
     (Api.handle penv db e (Put r id) req).1 = db).
Proof.
  split; [|split].
  - intros (k & Hk & Hf).
    unfold Api.handle, Api.app, run, Api.register.
    assert (Hor : negb (truthy (get (req_body req) "email"))
                  || negb (truthy (get (req_body req) "password")) = true).
    { apply elem_of_cons in Hk as [->|Hk]; [by rewrite Hf|].
      apply elem_of_cons in Hk as [->|Hk]; [|by apply elem_of_nil in Hk].
      rewrite Hf. apply orb_true_r. }
    by rewrite Hor.
  - intros r req' Hl Hg. apply lacks_incomplete in Hl.
    pose proof (gate_next penv db e req req' Hg) as Hb.
    unfold Api.handle, Api.app, run. rewrite Hg. split.
    + unfold Api.post. by rewrite incomplete_created, Hb, Hl.
    + intros id Hid. unfold Api.put. by rewrite Hid, incomplete_updated, Hb, Hl.
  - intros r id Hl. apply lacks_incomplete in Hl.
    unfold Api.handle, Api.app, run.
    destruct (Api.authMiddleware penv db e req) as [db' r'|req'] eqn:Hg.
    + apply gate_done in Hg as [-> _]. done.
    + pose proof (gate_next penv db e req req' Hg) as Hb. split.
      * unfold Api.post. by rewrite incomplete_created, Hb, Hl.
      * unfold Api.put. destruct (ObjectId_isValid id); simpl; [|done].
        by rewrite incomplete_updated, Hb, Hl.
Qed.

(** C2, as amended: when [req.body] is an object in which a required field
    is absent or falsy, the answer is 400: POST /auth/register says
    [{ message: "Email and password required" }]; POST and PUT on /students
    and /courses say [{ message: "All fields are required" }] once the gate
    has passed the request and, for PUT, the identifier is well formed.  When
    [req.body] itself is undefined, reading it throws inside [try] and those
    routes answer 500 instead.  In every one of these cases [db] is left as
    it was: no document is created or replaced. *)
Theorem missing_fields_are_rejected `{Libs} (penv : ProcessEnv)
    (db : option DB) (e : Env) (inc : Incoming) :
  (forall b,
     in_body inc = Some b ->
     (lacks ["email"; "password"] b ->
      receive penv db e PostRegister inc =
      (db, Some (json 400 (message "Email and password required")))) /\
     (forall r req',
        lacks (fields r) b ->
        Api.authMiddleware penv db e (parsed inc b) = Next req' ->
        receive penv db e (Post r) inc =
          (db, Some (json 400 (message "All fields are required"))) /\
        (forall id, ObjectId_isValid id = true ->
           receive penv db e (Put r id) inc =
           (db, Some (json 400 (message "All fields are required"))))) /\
     (forall r id,
        lacks (fields r) b ->
        (receive penv db e (Post r) inc).1 = db /\
        (receive penv db e (Put r id) inc).1 = db)) /\
  (in_body inc = None ->
   receive penv db e PostRegister inc =
     (db, Some (json 500 (error
        "Cannot destructure property 'email' of 'req.body' as it is undefined."))) /\
   (forall r req',
      Api.authMiddleware penv db e (parsed inc ∅) = Next req' ->
      receive penv db e (Post r) inc =
        (db, Some (json 500 (error (reading (hd "" (fields r)))))) /\
      (forall id, ObjectId_isValid id = true ->
         receive penv db e (Put r id) inc =
         (db, Some (json 500 (error (reading (hd "" (fields r)))))))) /\
   (forall r id,
      (receive penv db e (Post r) inc).1 = db /\
      (receive penv db e (Put r id) inc).1 = db)).
Proof.
  split.
  - intros b Hb.
    assert (Hrec : forall ep, receive penv db e ep inc =
                              Api.handle penv db e ep (parsed inc b)).
    { intros ep. unfold receive, routes. by rewrite Hb. }
    destruct (lacking_body_is_rejected penv db e (parsed inc b)) as (Hr & Hw & Hs).
    rewrite !Hrec. split; [exact Hr|]. split.
    + intros r req' Hl Hg. rewrite !Hrec.
      destruct (Hw r req' Hl Hg) as [Hpost Hput]. split; [done|].
      intros id Hid. rewrite Hrec. by apply Hput.
    + intros r id Hl. rewrite !Hrec. by apply Hs.
  - intros Hb. unfold receive, routes. rewrite Hb. simpl.
    split; [done|]. split.
    + intros r req' Hg. rewrite Hg. split; [done|].
      intros id Hid. unfold put_body_undefined. by rewrite Hid.
    + intros r id.
      destruct (Api.authMiddleware penv db e (parsed inc ∅)) as [db1 r1|req'] eqn:Hg.
      * apply gate_done in Hg as [-> _]. done.
      * unfold put_body_undefined. split; [done|].
        by destruct (ObjectId_isValid id).
Qed.

Lemma missing_fields_are_rejected_witness :
  let bearer := Some ("Bearer " ++ Sample.token) in
  let no_password := {| in_authorization := None;
                        in_body := Some (obj [("email", VStr "a@b.com")]) |} in
  let no_year := {| in_authorization := bearer;
                    in_body := Some (obj (("year", VNum 0) :: Sample.grace)) |} in
  let no_body := {| in_authorization := bearer; in_body := None |} in
  receive Sample.penv (Some Sample.db) Sample.env PostRegister no_password =
    (Some Sample.db, Some (json 400 (message "Email and password required"))) /\
  receive Sample.penv (Some Sample.db) Sample.env (Post Students) no_year =
    (Some Sample.db, Some (json 400 (message "All fields are required"))) /\
  receive Sample.penv (Some Sample.db) Sample.env (Put Students Sample.ada_hex) no_year =
    (Some Sample.db, Some (json 400 (message "All fields are required"))) /\
  (receive Sample.penv (Some Sample.db) Sample.env (Put Students "x") no_year).1 =
    Some Sample.db /\
  receive Sample.penv (Some Sample.db) Sample.env (Post Students) no_body =
    (Some Sample.db, Some (json 500 (error (reading "firstName")))) /\
  (receive Sample.penv (Some Sample.db) Sample.env PostRegister no_body).1 =
    Some Sample.db.
Proof.
  intros bearer no_password no_year no_body.
  pose (claims := {| userId := 7%N; iat := 5%N; exp := 3605%N |}).
  pose proof (missing_fields_are_rejected Sample.penv (Some Sample.db) Sample.env)
    as T.
  assert (Hl : lacks (fields Students) (obj (("year", VNum 0) :: Sample.grace))).
  { exists "year". split; [|reflexivity].
    apply (bool_decide_unpack _). vm_compute. exact I. }
  assert (Hg : Api.authMiddleware Sample.penv (Some Sample.db) Sample.env
                 (parsed no_year (obj (("year", VNum 0) :: Sample.grace))) =
               Next {| authorization := bearer;
                       req_body := obj (("year", VNum 0) :: Sample.grace);
                       user := Some claims |}).
  { vm_compute. reflexivity. }
  assert (Hg0 : Api.authMiddleware Sample.penv (Some Sample.db) Sample.env
                  (parsed no_body ∅) =
                Next {| authorization := bearer; req_body := ∅;
                        user := Some claims |}).
  { vm_compute. reflexivity. }
  destruct (proj1 (T no_year) _ eq_refl) as (_ & Hw & Hs).
  destruct (Hw Students _ Hl Hg) as [Hpost Hput].
  destruct (proj2 (T no_body) eq_refl) as (Hreg0 & Hw0 & _).
  split; [|split; [|split; [|split; [|split]]]].
  - apply (proj1 (proj1 (T no_password) _ eq_refl)).
    exists "password". split; [|reflexivity].
    apply (bool_decide_unpack _). vm_compute. exact I.
  - exact Hpost.
  - apply Hput. vm_compute. reflexivity.
  - apply (proj2 (Hs Students "x" Hl)).
  - apply (proj1 (Hw0 Students _ Hg0)).
  - by rewrite Hreg0.
Defined.

(** C2 as stated fails on POST /auth/register: the message of its 400 is
    ["Email and password required"], not ["All fields are required"]. *)
Lemma register_has_its_own_message :
  let req := Sample.request None [("email", VStr "a@b.com")] in
  let out := Api.handle Sample.penv (Some Sample.db) Sample.env PostRegister req in
  truthy (get (req_body req) "password") = false /\
  out = (Some Sample.db, Some (json 400 (message "Email and password required"))) /\
  out <> (Some Sample.db, Some (json 400 (message "All fields are required"))).
Proof.
  split; [done|]. split; [done|].
  intros Heq.
  apply (f_equal (fun o => match o.2 with
                           | Some resp => payload resp !! "message"
                           | None => None
                           end)) in Heq.
  vm_compute in Heq. discriminate Heq.
Qed.

(** ** Identifiers *)

(** C5, as amended: in the server of src/unnamed/part_000, GET on
    /students/:id and /courses/:id answers 400 when the identifier is not a
    well-formed ObjectId and 404 when it is well formed and no stored document
    has it; PUT and DELETE do the same once the gate has admitted the request
    (for the 404 of PUT the body must also be complete); [db] is left as it
    was.  In src/server.js, PUT and DELETE on /students/:id do not check the
    identifier: a malformed one is answered 500. *)
Theorem ids_are_checked `{Libs} (penv : ProcessEnv) (db : option DB) (e : Env)
    (req : Request) (r : Resource) (id : string) :
  (ObjectId_parse id = None ->
   let bad := (db, Some (json 400 (message ("Invalid " ++ noun r ++ " ID")))) in
   Api.handle penv db e (GetOne r id) req = bad /\
   (forall req', Api.authMiddleware penv db e req = Next req' ->
      Api.handle penv db e (Put r id) req = bad /\
      Api.handle penv db e (Delete r id) req = bad)) /\
  (forall o d,
     ObjectId_parse id = Some o -> db = Some d ->
     findOne_id o (collection r d) = None ->
     let gone := (db, Some (json 404 (message (Noun r ++ " not found")))) in
     Api.handle penv db e (GetOne r id) req = gone /\
     (forall req', Api.authMiddleware penv db e req = Next req' ->
        Api.handle penv db e (Delete r id) req = gone /\
        (incomplete r (req_body req) = false ->
         Api.handle penv db e (Put r id) req = gone))) /\
  (ObjectId_parse id = None ->
   exists msg,
     Legacy.handle db e (Put Students id) req = (db, Some (json 500 (error msg))) /\
     Legacy.handle db e (Delete Students id) req = (db, Some (json 500 (error msg)))).
Proof.
  split; [|split].
  - intros Hp bad. subst bad.
    assert (Hv : ObjectId_isValid id = false) by (unfold ObjectId_isValid; by rewrite Hp).
    split.
    + unfold Api.handle, Api.app, run, Api.get_one. by rewrite Hv.
    + intros req' Hg. unfold Api.handle, Api.app, run. rewrite Hg.
      unfold Api.put, Api.delete. by rewrite Hv.
  - intros o d Hp -> Hf gone. subst gone.
    assert (Hv : ObjectId_isValid id = true) by (unfold ObjectId_isValid; by rewrite Hp).
    assert (Hn : new_ObjectId id = Ok o) by (unfold new_ObjectId; by rewrite Hp).
    split.
    + unfold Api.handle, Api.app, run, Api.get_one. rewrite Hv. simpl.
      rewrite Hn. simpl. by rewrite Hf.
    + intros req' Hg. unfold Api.handle, Api.app, run. rewrite Hg. split.
      * unfold Api.delete. rewrite Hv. simpl. rewrite Hn. simpl.
        rewrite (find_none_deleteOne _ _ Hf). simpl.
        by rewrite with_collection_same.
      * intros Hc. unfold Api.put. rewrite Hv. simpl.
        rewrite incomplete_updated, (gate_next penv _ _ _ _ Hg), Hc. simpl.
        rewrite Hn. simpl. rewrite (find_none_replaceOne _ _ _ Hf). simpl.
        by rewrite with_collection_same.
  - intros Hp.
    assert (Hc : exists msg, Legacy.ObjectId_call id = Throw msg).
    { unfold Legacy.ObjectId_call, new_ObjectId. rewrite Hp.
      destruct ObjectId_callable; eauto. }
    destruct Hc as [msg Hc]. exists msg.
    unfold Legacy.handle, Legacy.app, run,
      Legacy.put_students, Legacy.delete_students.
    by rewrite Hc.
Qed.

Lemma ids_are_checked_witness :
  let anyone := Sample.request None [] in
  let bearer := Sample.request (Some ("Bearer " ++ Sample.token)) Sample.grace in
  Api.handle Sample.penv (Some Sample.db) Sample.env (GetOne Students "42") anyone =
    (Some Sample.db, Some (json 400 (message "Invalid student ID"))) /\
  Api.handle Sample.penv (Some Sample.db) Sample.env (Delete Courses "42") bearer =
    (Some Sample.db, Some (json 400 (message "Invalid course ID"))) /\
  Api.handle Sample.penv (Some Sample.db) Sample.env
    (GetOne Courses Sample.other_hex) anyone =
    (Some Sample.db, Some (json 404 (message "Course not found"))) /\
  Api.handle Sample.penv (Some Sample.db) Sample.env
    (Put Students Sample.other_hex) bearer =
    (Some Sample.db, Some (json 404 (message "Student not found"))) /\
  (exists msg,
     Legacy.handle (Some Sample.db) Sample.env (Put Students "42") anyone =
       (Some Sample.db, Some (json 500 (error msg))) /\
     Legacy.handle (Some Sample.db) Sample.env (Delete Students "42") anyone =
       (Some Sample.db, Some (json 500 (error msg)))).
Proof.
  intros anyone bearer.
  pose (passed := {| authorization := authorization bearer;
                       req_body := req_body bearer;
                       user := Some {| userId := 7%N; iat := 5%N; exp := 3605%N |} |}).
  assert (Hg : Api.authMiddleware Sample.penv (Some Sample.db) Sample.env bearer
               = Next passed).
  { vm_compute. reflexivity. }
  split; [|split; [|split; [|split]]].
  - apply (proj1 (ids_are_checked Sample.penv (Some Sample.db) Sample.env
                    anyone Students "42")).
    reflexivity.
  - apply (proj1 (ids_are_checked Sample.penv (Some Sample.db) Sample.env
                    bearer Courses "42")) with passed.
    + reflexivity.
    + exact Hg.
  - apply (proj1 (proj2 (ids_are_checked Sample.penv (Some Sample.db)
                           Sample.env anyone Courses Sample.other_hex))
             24912482966938930280208240658%N Sample.db).
    + reflexivity.
    + reflexivity.
    + reflexivity.
  - apply (proj1 (proj2 (ids_are_checked Sample.penv (Some Sample.db)
                           Sample.env bearer Students Sample.other_hex))
             24912482966938930280208240658%N Sample.db) with passed.
    + reflexivity.
    + reflexivity.
    + reflexivity.
    + exact Hg.
    + vm_compute. reflexivity.
  - apply (proj2 (proj2 (ids_are_checked Sample.penv (Some Sample.db) Sample.env
                           anyone Students "42"))).
    reflexivity.
Defined.

(** C5 as stated fails on src/server.js: PUT and DELETE on /students/:id with
    a malformed identifier are answered 500, whether or not the driver lets
    [ObjectId] be called without [new]. *)
Lemma legacy_malformed_id_is_500 :
  let req := Sample.request None Sample.grace in
  ObjectId_isValid "not-an-id" = false /\
  (forall callable,
     status <$> (@Legacy.handle (ref_with callable) (Some Sample.db) Sample.env
                   (Put Students "not-an-id") req).2 = Some 500%N /\
     status <$> (@Legacy.handle (ref_with callable) (Some Sample.db) Sample.env
                   (Delete Students "not-an-id") req).2 = Some 500%N).
Proof. split; [done|]. by intros []. Qed.

(** ** Replacement *)

(** C10: a PUT on /students/:id or /courses/:id succeeds (204, empty body)
    exactly when the gate passes it, the identifier is well formed, every
    required field of the body is truthy and a stored document has the
    identifier.  It then replaces that document wholesale: the document under
    the identifier consists of exactly the required fields with the values of
    the request body, so every other field it had, [createdAt] among them, is
    gone.  The number of documents, the other documents, the other collection
    and the users are as they were. *)
Theorem put_replaces_wholesale `{Libs} (penv : ProcessEnv) (d : DB) (e : Env)
    (req : Request) (r : Resource) (id : string) :
  (forall req' o old,
     Api.authMiddleware penv (Some d) e req = Next req' ->
     ObjectId_parse id = Some o ->
     incomplete r (req_body req) = false ->
     findOne_id o (collection r d) = Some old ->
     exists d' stored,
       Api.handle penv (Some d) e (Put r id) req = (Some d', Some (empty 204)) /\
       findOne_id o (collection r d') = Some (o, stored) /\
       (forall k, stored !! k =
                  if bool_decide (k ∈ fields r) then req_body req !! k else None) /\
       stored !! "createdAt" = None /\
       length (collection r d') = length (collection r d) /\
       (forall o', o' <> o ->
          findOne_id o' (collection r d') = findOne_id o' (collection r d)) /\
       (forall r', r' <> r -> collection r' d' = collection r' d) /\
       users d' = users d) /\
  (forall db' resp,
     Api.handle penv (Some d) e (Put r id) req = (db', Some resp) ->
     status resp = 204%N ->
     exists req' o old,
       Api.authMiddleware penv (Some d) e req = Next req' /\
       ObjectId_parse id = Some o /\
       incomplete r (req_body req) = false /\
       findOne_id o (collection r d) = Some old).
Proof.
  split.
  - intros req' o old Hg Hp Hc Hf.
    pose proof (gate_next penv _ _ _ _ Hg) as Hb.
    exists (with_collection r d
              (replaceOne o (obj (picked r (req_body req))) (collection r d)).1),
           (obj (picked r (req_body req))).
    assert (Hfields : forall k, obj (picked r (req_body req)) !! k =
              if bool_decide (k ∈ fields r) then req_body req !! k else None).
    { intros k. case_bool_decide as Hk.
      - destruct (complete_lookup r (req_body req) k Hc Hk) as [-> _].
        rewrite <- (app_nil_r (picked r (req_body req))).
        by apply (lookup_obj_map (get (req_body req))).
      - by apply lookup_picked_other. }
    pose proof (replaceOne_found o (obj (picked r (req_body req))) _ _ Hf) as Hm.
    split.
    { unfold Api.handle, Api.app, run. rewrite Hg.
      unfold Api.put, ObjectId_isValid, new_ObjectId. rewrite Hp. simpl.
      rewrite incomplete_updated, Hb, Hc. simpl. by rewrite Hm. }
    rewrite collection_with_collection.
    split; [apply replaceOne_matched; by rewrite Hm|].
    split; [done|]. split.
    { rewrite Hfields. case_bool_decide as Hk; [|done].
      destruct r; apply (bool_decide_pack _) in Hk; vm_compute in Hk;
        destruct Hk. }
    split; [apply replaceOne_length|].
    split; [by intros o' Ho'; apply replaceOne_other|].
    split; [by intros [] ?; destruct r|by destruct r].
  - intros db' resp. unfold Api.handle, Api.app, run.
    destruct (Api.authMiddleware penv (Some d) e req) as [db1 r1|req'] eqn:Hg.
    { apply gate_done in Hg as [_ Hs]. intros [= _ <-]. by rewrite Hs. }
    pose proof (gate_next penv _ _ _ _ Hg) as Hb.
    unfold Api.put. unfold ObjectId_isValid, new_ObjectId.
    destruct (ObjectId_parse id) as [o|] eqn:Hp; simpl; [|by intros [= _ <-]].
    rewrite incomplete_updated, Hb.
    destruct (incomplete r (req_body req)) eqn:Hc; simpl; [by intros [= _ <-]|].
    destruct (findOne_id o (collection r d)) as [old|] eqn:Hf.
    + intros _ _. by exists req', o, old.
    + rewrite (find_none_replaceOne _ _ _ Hf). simpl. by intros [= _ <-].
Qed.

Lemma put_replaces_wholesale_witness :
  let bearer := Sample.request (Some ("Bearer " ++ Sample.token)) Sample.grace in
  exists d' stored,
    Api.handle Sample.penv (Some Sample.db) Sample.env
      (Put Students Sample.ada_hex) bearer = (Some d', Some (empty 204)) /\
    findOne_id Sample.ada_id (collection Students d') = Some (Sample.ada_id, stored) /\
    (forall k, stored !! k =
               if bool_decide (k ∈ fields Students) then req_body bearer !! k
               else None) /\
    stored !! "createdAt" = None /\
    length (collection Students d') = length (collection Students Sample.db) /\
    (forall o', o' <> Sample.ada_id ->
       findOne_id o' (collection Students d') =
       findOne_id o' (collection Students Sample.db)) /\
    (forall r', r' <> Students -> collection r' d' = collection r' Sample.db) /\
    users d' = users Sample.db.
Proof.
  intros bearer.
  apply (proj1 (put_replaces_wholesale Sample.penv Sample.db Sample.env bearer
                  Students Sample.ada_hex)
           {| authorization := authorization bearer; req_body := req_body bearer;
              user := Some {| userId := 7%N; iat := 5%N; exp := 3605%N |} |}
           Sample.ada_id (Sample.ada_id, Sample.ada)).
  - vm_compute. reflexivity.
  - reflexivity.
  - vm_compute. reflexivity.
  - reflexivity.
Defined.

(** The document of the sample store has a [createdAt] before the PUT and none
    after it. *)
Example put_drops_createdAt :
  let bearer := Sample.request (Some ("Bearer " ++ Sample.token)) Sample.grace in
  let out := Api.handle Sample.penv (Some Sample.db) Sample.env
               (Put Students Sample.ada_hex) bearer in
  (fun doc => doc.2 !! "createdAt") <$> findOne_id Sample.ada_id (students Sample.db)
    = Some (Some (VDate 1000%N)) /\
  (fun d' => (fun doc => (doc.2 !! "createdAt", doc.2 !! "firstName")) <$>
             findOne_id Sample.ada_id (students d')) <$> out.1
    = Some (Some (None, Some (VStr "Grace"))).
Proof. vm_compute. done. Qed.

(** ** Startup *)

Lemma exited_serves_nothing `{Libs} (penv : ProcessEnv) (code : N)
    (rs : list (Env * Endpoint * Request)) :
  Api.serve_all penv (Exited code) rs = (Exited code, map (fun _ => None) rs).
Proof.
  induction rs as [|[[e ep] req] rs IH]; simpl; [done|]. by rewrite IH.
Qed.

(** C8, as amended: in the server of src/unnamed/part_000, when JWT_SECRET is
    undefined or empty at startup the process exits with code 1 before it
    connects or listens, and no request is ever answered.  src/server.js has
    no such check: it connects and listens whatever the environment holds. *)
Theorem no_secret_no_server `{Libs} (penv : ProcessEnv) (connected : option DB) :
  unset (JWT_SECRET penv) = true ->
  Api.startup_actions penv = [Exit 1] /\
  Api.startup penv connected = Exited 1 /\
  (forall rs,
     (Api.serve_all penv (Api.startup penv connected) rs).2 =
     map (fun _ => None) rs) /\
  Legacy.startup_actions penv = [Connect; Listen (port_of penv)] /\
  Legacy.startup penv connected = Listening (port_of penv) connected.
Proof.
  intros Hu. unfold Api.startup_actions, Api.startup. rewrite Hu.
  repeat split. intros rs. by rewrite exited_serves_nothing.
Qed.

Lemma no_secret_no_server_witness :
  Api.startup_actions Sample.no_secret = [Exit 1] /\
  Api.startup Sample.no_secret (Some Sample.db) = Exited 1 /\
  (forall rs,
     (Api.serve_all Sample.no_secret
        (Api.startup Sample.no_secret (Some Sample.db)) rs).2 =
     map (fun _ => None) rs) /\
  Legacy.startup_actions Sample.no_secret = [Connect; Listen (port_of Sample.no_secret)] /\
  Legacy.startup Sample.no_secret (Some Sample.db) =
  Listening (port_of Sample.no_secret) (Some Sample.db).
Proof.
  apply (no_secret_no_server Sample.no_secret (Some Sample.db)).
  reflexivity.
Defined.

(** C8 as stated fails on src/server.js: without JWT_SECRET it listens and
    answers. *)
Lemma legacy_starts_without_secret :
  JWT_SECRET Sample.no_secret = None /\
  Legacy.startup_actions Sample.no_secret = [Connect; Listen (VStr "8080")] /\
  (Legacy.serve (Legacy.startup Sample.no_secret (Some Sample.db)) Sample.env
     GetRoot (Sample.request None [])).2 =
  Some (text "Student Management API is running").
Proof. done. Qed.

(** ** Registration *)

Lemma find_app_none {A} (f : A -> bool) (l1 l2 : list A) :
  List.find f l1 = None -> List.find f (l1 ++ l2) = List.find f l2.
Proof.
  induction l1 as [|x l1 IH]; simpl; [done|]. by destruct (f x).
Qed.

Lemma get_user_fields (email : Value) (hashed : string) (t : N) :
  let user := obj [("email", email); ("password", VStr hashed);
                   ("createdAt", VDate t)] in
  get user "email" = email /\ get user "password" = VStr hashed.
Proof.
  unfold get, obj. simpl. split.
  - by rewrite lookup_insert_eq.
  - rewrite lookup_insert_ne by done. by rewrite lookup_insert_eq.
Qed.

(** No stored user has the string [em] as email when the filter finds none. *)
Lemma no_user_with_email `{Libs} (em : string) (c : Collection) :
  findOne_by "email" (VStr em) c = None ->
  List.filter (has_email em) c = [].
Proof.
  unfold findOne_by. induction c as [|doc c IH]; simpl; [done|].
  destruct (filter_match _ _) eqn:Hm; [done|]. intros Hc.
  rewrite IH by done. unfold has_email.
  destruct (get doc.2 "email") as [| | | |s| | | |] eqn:Hg; try done.
  destruct (String.eqb_spec s em) as [->|]; [|done].
  by rewrite filter_match_str, String.eqb_refl in Hm.
Qed.

(** C3: when no user has the email yet, registering it twice in a row (a
    non-empty email and password, a fresh [_id] for the insert) is answered
    201 the first time and 400 [{ message: "User already exists" }] the second
    time, and the users collection then holds exactly one document with that
    email. *)
Theorem duplicate_registration_is_refused `{Libs} (penv : ProcessEnv) (d : DB)
    (e1 e2 : Env) (req1 req2 : Request) (em pw : string) :
  get (req_body req1) "email" = VStr em -> em <> "" ->
  get (req_body req1) "password" = VStr pw -> pw <> "" ->
  get (req_body req2) "email" = VStr em ->
  truthy (get (req_body req2) "password") = true ->
  findOne_by "email" (VStr em) (users d) = None ->
  existsb (has_id (fresh_id e1)) (users d) = false ->
  exists d1,
    Api.handle penv (Some d) e1 PostRegister req1 =
      (Some d1, Some (json 201 (VObj (obj [("message", VStr "User created");
                                           ("id", VId (fresh_id e1))])))) /\
    Api.handle penv (Some d1) e2 PostRegister req2 =
      (Some d1, Some (json 400 (message "User already exists"))) /\
    length (List.filter (has_email em) (users d1)) = 1%nat.
Proof.
  intros He1 Hem Hp1 Hpw He2 Hp2 Hnone Hfresh.
  set (user := obj [("email", VStr em);
                    ("password", VStr (bcrypt_digest 10 (salt e1) pw));
                    ("createdAt", VDate (now e1))]).
  exists (with_users d (users d ++ [(fresh_id e1, user)])).
  apply truthy_str in Hem, Hpw.
  split; [|split].
  - unfold Api.handle, Api.app, run, Api.register.
    rewrite He1, Hp1, Hem, Hpw. simpl.
    rewrite Hnone. simpl. unfold insertOne. by rewrite Hfresh.
  - unfold Api.handle, Api.app, run, Api.register.
    rewrite He2, Hp2, Hem. simpl.
    unfold findOne_by in *. rewrite find_app_none by done. simpl.
    destruct (get_user_fields (VStr em) (bcrypt_digest 10 (salt e1) pw) (now e1))
      as [Hg _].
    fold user in Hg. rewrite Hg, filter_match_str, String.eqb_refl. done.
  - simpl. rewrite List.filter_app, no_user_with_email by done. simpl.
    unfold has_email. simpl.
    destruct (get_user_fields (VStr em) (bcrypt_digest 10 (salt e1) pw) (now e1))
      as [Hg _].
    fold user in Hg. rewrite Hg, String.eqb_refl. done.
Qed.

Lemma duplicate_registration_is_refused_witness :
  let req := Sample.request None [("email", VStr "c@d.org"); ("password", VStr "hunter2")] in
  let later := {| now := 9000%N; fresh_id := 43%N; salt := "zyxwvutsrqponmlkjihgfe" |} in
  exists d1,
    Api.handle Sample.penv (Some Sample.db) Sample.env PostRegister req =
      (Some d1, Some (json 201 (VObj (obj [("message", VStr "User created");
                                           ("id", VId 42%N)])))) /\
    Api.handle Sample.penv (Some d1) later PostRegister req =
      (Some d1, Some (json 400 (message "User already exists"))) /\
    length (List.filter (has_email "c@d.org") (users d1)) = 1%nat.
Proof.
  intros req later.
  apply (duplicate_registration_is_refused Sample.penv Sample.db Sample.env later
           req req "c@d.org" "hunter2").
  - reflexivity.
  - discriminate.
  - reflexivity.
  - discriminate.
  - reflexivity.
  - reflexivity.
  - reflexivity.
  - reflexivity.
Defined.

(** ** Passwords *)

Section Passwords.
Context `{Libs} (penv : ProcessEnv).

(** What a 201 from the registration route tells. *)
Lemma register_created d e req db' r :
  Api.handle penv (Some d) e PostRegister req = (db', Some r) ->
  status r = 201%N ->
  exists pw,
    get (req_body req) "password" = VStr pw /\
    db' = Some (with_users d
                  (users d ++
                   [(fresh_id e,
                     obj [("email", get (req_body req) "email");
                          ("password", VStr (bcrypt_digest 10 (salt e) pw));
                          ("createdAt", VDate (now e))])])) /\
    r = json 201 (VObj (obj [("message", VStr "User created");
                             ("id", VId (fresh_id e))])).
Proof.
  unfold Api.handle, Api.app, run, Api.register.
  destruct (negb (truthy (get (req_body req) "email"))
            || negb (truthy (get (req_body req) "password"))); simpl;
    [by intros [= <- <-]|].
  destruct (findOne_by _ _ _); simpl; [by intros [= <- <-]|].
  unfold bcrypt_hash.
  destruct (get (req_body req) "password") as [| | | |pw| | | |]; simpl;
    try by intros [= <- <-].
  unfold insertOne. destruct (existsb _ _); simpl; [by intros [= <- <-]|].
  intros [= <- <-] _. by exists pw.
Qed.



End Passwords.



(** * Further properties of the handlers *)

(** ** More facts about the store *)

Lemma has_id_spec (o : ObjectId) (d : ObjectId * Obj) :
  has_id o d = true <-> d.1 = o.
Proof. unfold has_id. apply N.eqb_eq. Qed.

Lemma findOne_id_none (o : ObjectId) (c : Collection) :
  findOne_id o c = None <-> o ∉ ids c.
Proof.
  unfold findOne_id, ids. induction c as [|d c IH]; simpl.
  - split; [intros _; apply not_elem_of_nil|done].
  - rewrite not_elem_of_cons. destruct (has_id o d) eqn:Hd.
    + apply has_id_spec in Hd. split; [done|]. by intros [? _].
    + split.
      * intros Hc. split; [|by apply IH].
        intros ->. by rewrite (proj2 (has_id_spec _ _) eq_refl) in Hd.
      * intros [_ Hc]. by apply IH.
Qed.

Lemma findOne_id_some (o : ObjectId) (c : Collection) (d : ObjectId * Obj) :
  findOne_id o c = Some d -> d.1 = o /\ d ∈ c.
Proof.
  unfold findOne_id. intros Hf. apply List.find_some in Hf as [Hin Hd].
  split; [by apply has_id_spec|by apply list_elem_of_In].
Qed.

Lemma existsb_has_id (o : ObjectId) (c : Collection) :
  existsb (has_id o) c = false <-> o ∉ ids c.
Proof.
  rewrite <- findOne_id_none. unfold findOne_id.
  induction c as [|d c IH]; simpl; [done|]. by destruct (has_id o d).
Qed.

Lemma findOne_id_last (o : ObjectId) (doc : Obj) (c : Collection) :
  o ∉ ids c -> findOne_id o (c ++ [(o, doc)]) = Some (o, doc).
Proof.
  intros Hc%findOne_id_none. unfold findOne_id in *.
  rewrite find_app_none by done. simpl. unfold has_id. simpl.
  by rewrite N.eqb_refl.
Qed.

Lemma replaceOne_ids (o : ObjectId) (doc : Obj) (c : Collection) :
  ids (replaceOne o doc c).1 = ids c.
Proof.
  unfold ids. induction c as [|d c IH]; simpl; [done|].
  destruct (has_id o d); simpl; [done|].
  destruct (replaceOne o doc c) as [c' n]. simpl in *. f_equal. exact IH.
Qed.

Lemma replaceOne_unmatched (o : ObjectId) (doc : Obj) (c : Collection) :
  (replaceOne o doc c).2 = 0%N -> (replaceOne o doc c).1 = c.
Proof.
  induction c as [|d c IH]; simpl; [done|].
  destruct (has_id o d); simpl; [done|].
  destruct (replaceOne o doc c) as [c' n]. simpl in *. intros Hn.
  by rewrite IH.
Qed.

Lemma replaceOne_twice (o : ObjectId) (doc : Obj) (c : Collection) :
  replaceOne o doc (replaceOne o doc c).1 = replaceOne o doc c.
Proof.
  induction c as [|d c IH]; simpl; [done|].
  destruct (has_id o d) eqn:Hd; simpl.
  - unfold has_id in *. simpl. by rewrite Hd.
  - destruct (replaceOne o doc c) as [c' n]. simpl in *.
    by rewrite Hd, IH.
Qed.

Lemma deleteOne_unmatched (o : ObjectId) (c : Collection) :
  (deleteOne o c).2 = 0%N -> (deleteOne o c).1 = c.
Proof.
  induction c as [|d c IH]; simpl; [done|].
  destruct (has_id o d); simpl; [done|].
  destruct (deleteOne o c) as [c' n]. simpl in *. intros Hn.
  by rewrite IH.
Qed.

Lemma deleteOne_matched (o : ObjectId) (c : Collection) (d : ObjectId * Obj) :
  findOne_id o c = Some d -> (deleteOne o c).2 = 1%N.
Proof.
  unfold findOne_id. induction c as [|x c IH]; simpl; [done|].
  destruct (has_id o x); simpl; [done|].
  destruct (deleteOne o c) as [c' n]. simpl in *. apply IH.
Qed.

Lemma deleteOne_sublist (o : ObjectId) (c : Collection) :
  sublist (deleteOne o c).1 c.
Proof.
  induction c as [|d c IH]; simpl; [done|].
  destruct (has_id o d); simpl.
  - by apply sublist_cons.
  - destruct (deleteOne o c) as [c' n]. simpl in *. by apply sublist_skip.
Qed.

Lemma deleteOne_ids_unique (o : ObjectId) (c : Collection) :
  NoDup (ids c) -> NoDup (ids (deleteOne o c).1).
Proof.
  unfold ids. intros Hc.
  apply (sublist_NoDup (deleteOne o c).1.*1 c.*1); [done|].
  apply fmap_sublist, deleteOne_sublist.
Qed.

Lemma deleteOne_gone (o : ObjectId) (c : Collection) :
  NoDup (ids c) -> findOne_id o (deleteOne o c).1 = None.
Proof.
  unfold ids, findOne_id. induction c as [|d c IH]; simpl; [done|].
  intros [Hd Hc]%NoDup_cons. destruct (has_id o d) eqn:Ho; simpl.
  - apply has_id_spec in Ho. subst o. by apply findOne_id_none.
  - destruct (deleteOne o c) as [c' n]. simpl in *. rewrite Ho. by apply IH.
Qed.

Lemma deleteOne_other (o o' : ObjectId) (c : Collection) :
  o' <> o -> findOne_id o' (deleteOne o c).1 = findOne_id o' c.
Proof.
  intros Hne. unfold findOne_id. induction c as [|d c IH]; simpl; [done|].
  destruct (has_id o d) eqn:Hd; simpl.
  - apply has_id_spec in Hd.
    destruct (has_id o' d) eqn:Hd'; [|done].
    apply has_id_spec in Hd'. congruence.
  - destruct (deleteOne o c) as [c' n]. simpl in *. by rewrite IH.
Qed.

Lemma deleteOne_length (o : ObjectId) (c : Collection) :
  (length (deleteOne o c).1 + N.to_nat (deleteOne o c).2 = length c)%nat.
Proof.
  induction c as [|d c IH]; simpl; [done|].
  destruct (has_id o d); simpl; [lia|].
  destruct (deleteOne o c) as [c' n]. simpl in *. lia.
Qed.

(** ** Creating and reading *)

Lemma lookup_obj_map_other (f : string -> Value) (keys : list string)
    (rest : list (string * Value)) (k : string) :
  k ∉ keys ->
  obj (map (fun k => (k, f k)) keys ++ rest)%list !! k = obj rest !! k.
Proof.
  unfold obj. induction keys as [|k0 keys IH]; simpl; [done|].
  intros [Hne Hk]%not_elem_of_cons. rewrite lookup_insert_ne by done.
  by apply IH.
Qed.

(** The fields of the object a POST builds. *)
Lemma created_fields (r : Resource) (e : Env) (body : Obj) (k : string) :
  incomplete r body = false ->
  Api.created r e body !! k =
  if bool_decide (k ∈ fields r) then body !! k
  else match r with
       | Students => if bool_decide (k = "createdAt") then Some (VDate (now e))
                     else None
       | Courses => None
       end.
Proof.
  intros Hc. case_bool_decide as Hk.
  - destruct (complete_lookup r body k Hc Hk) as [-> _].
    destruct r; unfold Api.created.
    + by apply (lookup_obj_map (get body)).
    + rewrite <- (app_nil_r (picked Courses body)).
      by apply (lookup_obj_map (get body)).
  - destruct r; unfold Api.created.
    + unfold picked. rewrite (lookup_obj_map_other (get body)) by done.
      unfold obj. simpl. case_bool_decide as Hk'.
      * subst k. by rewrite lookup_insert_eq.
      * by rewrite lookup_insert_ne.
    + by apply lookup_picked_other.
Qed.

Section Creating.
Context `{Libs} (penv : ProcessEnv).

(** The POST route on a request the gate has passed, with a complete body, a
    connected store and a fresh identifier. *)
Lemma post_passed d e req req' r :
  Api.authMiddleware penv (Some d) e req = Next req' ->
  incomplete r (req_body req) = false ->
  fresh_id e ∉ ids (collection r d) ->
  Api.handle penv (Some d) e (Post r) req =
  (Some (with_collection r d
           (collection r d ++ [(fresh_id e, Api.created r e (req_body req))])),
   Some (json 201 (VObj (obj [("message", VStr (Noun r ++ " created"));
                              ("id", VId (fresh_id e))])))).
Proof.
  intros Hg Hc Hfresh. pose proof (gate_next penv _ _ _ _ Hg) as Hb.
  unfold Api.handle, Api.app, run. rewrite Hg. unfold Api.post.
  rewrite incomplete_created, Hb, Hc. simpl. unfold insertOne.
  apply existsb_has_id in Hfresh. by rewrite Hfresh.
Qed.
End Creating.

(** X1: a POST on /students or /courses that the gate has passed, with every
    required field truthy, a connected store and a fresh [_id], answers 201
    with the new identifier and appends one document to the collection.  The
    document holds the required fields with the values of the body and, for a
    student only, [createdAt] set to the time of the request; whatever else
    the body holds (a [createdAt], an [_id], any other field) is not stored.
    The other collections are untouched. *)
Theorem post_creates_document `{Libs} (penv : ProcessEnv) (d : DB) (e : Env)
    (req req' : Request) (r : Resource) :
  Api.authMiddleware penv (Some d) e req = Next req' ->
  incomplete r (req_body req) = false ->
  fresh_id e ∉ ids (collection r d) ->
  exists d' doc,
    Api.handle penv (Some d) e (Post r) req =
      (Some d', Some (json 201 (VObj (obj [("message", VStr (Noun r ++ " created"));
                                           ("id", VId (fresh_id e))])))) /\
    collection r d' = (collection r d ++ [(fresh_id e, doc)])%list /\
    (forall k, doc !! k =
       if bool_decide (k ∈ fields r) then req_body req !! k
       else match r with
            | Students => if bool_decide (k = "createdAt")
                          then Some (VDate (now e)) else None
            | Courses => None
            end) /\
    users d' = users d /\
    (forall r', r' <> r -> collection r' d' = collection r' d).
Proof.
  intros Hg Hc Hfresh.
  eexists _, (Api.created r e (req_body req)).
  split; [by apply post_passed with req'|].
  rewrite collection_with_collection. split; [done|].
  split; [intros k; by apply created_fields|].
  split; [by destruct r|by intros [] ?; destruct r].
Qed.

Lemma post_creates_document_witness :
  let bearer := Sample.request (Some ("Bearer " ++ Sample.token))
                  (("createdAt", VDate 1%N) :: ("role", VStr "admin") :: Sample.grace) in
  exists d' doc,
    Api.handle Sample.penv (Some Sample.db) Sample.env (Post Students) bearer =
      (Some d', Some (json 201 (VObj (obj [("message", VStr (Noun Students ++ " created"));
                                           ("id", VId (fresh_id Sample.env))])))) /\
    collection Students d' =
      (collection Students Sample.db ++ [(fresh_id Sample.env, doc)])%list /\
    (forall k, doc !! k =
       if bool_decide (k ∈ fields Students) then req_body bearer !! k
       else match Students with
            | Students => if bool_decide (k = "createdAt")
                          then Some (VDate (now Sample.env)) else None
            | Courses => None
            end) /\
    users d' = users Sample.db /\
    (forall r', r' <> Students -> collection r' d' = collection r' Sample.db).
Proof.
  intros bearer.
  apply (post_creates_document Sample.penv Sample.db Sample.env bearer
           {| authorization := authorization bearer; req_body := req_body bearer;
              user := Some {| userId := 7%N; iat := 5%N; exp := 3605%N |} |}
           Students).
  - vm_compute. reflexivity.
  - vm_compute. reflexivity.
  - apply (bool_decide_unpack _). vm_compute. reflexivity.
Defined.

(** X2: a document created by POST can be read back.  After such a POST, GET
    on the same resource with an identifier string that denotes the new
    [_id] answers 200 with the stored fields and [_id], and GET on the whole
    collection lists the former documents in their order followed by the new
    one. *)
Theorem created_document_is_read_back `{Libs} (penv : ProcessEnv) (d : DB)
    (e e2 : Env) (req req' req2 : Request) (r : Resource) (id : string) :
  Api.authMiddleware penv (Some d) e req = Next req' ->
  incomplete r (req_body req) = false ->
  fresh_id e ∉ ids (collection r d) ->
  ObjectId_parse id = Some (fresh_id e) ->
  exists d',
    (Api.handle penv (Some d) e (Post r) req).1 = Some d' /\
    Api.handle penv (Some d') e2 (GetOne r id) req2 =
      (Some d', Some (json 200 (VObj (<["_id" := VId (fresh_id e)]>
                                        (Api.created r e (req_body req)))))) /\
    Api.handle penv (Some d') e2 (GetAll r) req2 =
      (Some d', Some (json 200 (VArr (map document (collection r d) ++
                                      [document (fresh_id e,
                                                 Api.created r e (req_body req))])))).
Proof.
  intros Hg Hc Hfresh Hp.
  rewrite (post_passed penv d e req req' r Hg Hc Hfresh). eexists.
  split; [done|].
  unfold Api.handle, Api.app, run, Api.get_one, Api.get_all.
  unfold ObjectId_isValid, new_ObjectId. rewrite Hp. simpl.
  rewrite collection_with_collection, findOne_id_last by done.
  by rewrite map_app.
Qed.

Lemma created_document_is_read_back_witness :
  let bearer := Sample.request (Some ("Bearer " ++ Sample.token)) Sample.grace in
  let e := {| now := 6000%N; fresh_id := 24912482966938930280208240658%N;
              salt := "" |} in
  exists d',
    (Api.handle Sample.penv (Some Sample.db) e (Post Students) bearer).1 = Some d' /\
    Api.handle Sample.penv (Some d') Sample.env (GetOne Students Sample.other_hex)
      (Sample.request None []) =
      (Some d', Some (json 200 (VObj (<["_id" := VId (fresh_id e)]>
                                        (Api.created Students e (req_body bearer)))))) /\
    Api.handle Sample.penv (Some d') Sample.env (GetAll Students)
      (Sample.request None []) =
      (Some d', Some (json 200 (VArr (map document (collection Students Sample.db) ++
                                      [document (fresh_id e,
                                                 Api.created Students e (req_body bearer))])))).
Proof.
  intros bearer e.
  apply (created_document_is_read_back Sample.penv Sample.db e Sample.env bearer
           {| authorization := authorization bearer; req_body := req_body bearer;
              user := Some {| userId := 7%N; iat := 5%N; exp := 3605%N |} |}
           (Sample.request None []) Students Sample.other_hex).
  - vm_compute. reflexivity.
  - vm_compute. reflexivity.
  - apply (bool_decide_unpack _). vm_compute. reflexivity.
  - reflexivity.
Defined.

(** ** Deleting and replacing *)

Section Changing.
Context `{Libs} (penv : ProcessEnv).

(** The DELETE route on a request the gate has passed. *)
Lemma delete_passed d e req req' r id o :
  Api.authMiddleware penv (Some d) e req = Next req' ->
  ObjectId_parse id = Some o ->
  Api.handle penv (Some d) e (Delete r id) req =
  (Some (with_collection r d (deleteOne o (collection r d)).1),
   Some (if ((deleteOne o (collection r d)).2 =? 0)%N
         then json 404 (message (Noun r ++ " not found")) else empty 204)).
Proof.
  intros Hg Hp. unfold Api.handle, Api.app, run. rewrite Hg.
  unfold Api.delete, ObjectId_isValid, new_ObjectId. rewrite Hp. simpl.
  by destruct (_ =? 0)%N.
Qed.

(** The PUT route on a request the gate has passed, with a complete body. *)
Lemma put_passed d e req req' r id o :
  Api.authMiddleware penv (Some d) e req = Next req' ->
  ObjectId_parse id = Some o ->
  incomplete r (req_body req) = false ->
  Api.handle penv (Some d) e (Put r id) req =
  (Some (with_collection r d
           (replaceOne o (obj (picked r (req_body req))) (collection r d)).1),
   Some (if ((replaceOne o (obj (picked r (req_body req))) (collection r d)).2 =? 0)%N
         then json 404 (message (Noun r ++ " not found")) else empty 204)).
Proof.
  intros Hg Hp Hc. pose proof (gate_next penv _ _ _ _ Hg) as Hb.
  unfold Api.handle, Api.app, run. rewrite Hg.
  unfold Api.put, ObjectId_isValid, new_ObjectId. rewrite Hp. simpl.
  rewrite incomplete_updated, Hb, Hc. simpl.
  by destruct (_ =? 0)%N.
Qed.
End Changing.

(** X3: a DELETE on /students/:id or /courses/:id that the gate has passed,
    for a well-formed identifier held by a stored document, answers 204 with
    an empty body and removes that one document: the collection is one
    shorter, the other documents, the other collection and the users are as
    they were.  When no identifier occurs twice in the collection, the
    document is gone: a later GET with the same identifier answers 404. *)
Theorem delete_removes_document `{Libs} (penv : ProcessEnv) (d : DB) (e e2 : Env)
    (req req' req2 : Request) (r : Resource) (id : string) (o : ObjectId)
    (doc : ObjectId * Obj) :
  Api.authMiddleware penv (Some d) e req = Next req' ->
  ObjectId_parse id = Some o ->
  findOne_id o (collection r d) = Some doc ->
  exists d',
    Api.handle penv (Some d) e (Delete r id) req = (Some d', Some (empty 204)) /\
    S (length (collection r d')) = length (collection r d) /\
    (forall o', o' <> o ->
       findOne_id o' (collection r d') = findOne_id o' (collection r d)) /\
    users d' = users d /\
    (forall r', r' <> r -> collection r' d' = collection r' d) /\
    (NoDup (ids (collection r d)) ->
     Api.handle penv (Some d') e2 (GetOne r id) req2 =
     (Some d', Some (json 404 (message (Noun r ++ " not found"))))).
Proof.
  intros Hg Hp Hf. eexists.
  rewrite (delete_passed penv d e req req' r id o Hg Hp).
  pose proof (deleteOne_matched _ _ _ Hf) as Hm. rewrite Hm. simpl.
  split; [done|]. rewrite collection_with_collection.
  split; [pose proof (deleteOne_length o (collection r d)); lia|].
  split; [by intros o' Ho'; apply deleteOne_other|].
  split; [by destruct r|]. split; [by intros [] ?; destruct r|].
  intros Hu. unfold Api.handle, Api.app, run, Api.get_one.
  unfold ObjectId_isValid, new_ObjectId. rewrite Hp. simpl.
  rewrite collection_with_collection, deleteOne_gone by done. done.
Qed.

Lemma delete_removes_document_witness :
  let bearer := Sample.request (Some ("Bearer " ++ Sample.token)) [] in
  exists d',
    Api.handle Sample.penv (Some Sample.db) Sample.env
      (Delete Students Sample.ada_hex) bearer = (Some d', Some (empty 204)) /\
    S (length (collection Students d')) = length (collection Students Sample.db) /\
    (forall o', o' <> Sample.ada_id ->
       findOne_id o' (collection Students d') =
       findOne_id o' (collection Students Sample.db)) /\
    users d' = users Sample.db /\
    (forall r', r' <> Students -> collection r' d' = collection r' Sample.db) /\
    (NoDup (ids (collection Students Sample.db)) ->
     Api.handle Sample.penv (Some d') Sample.env (GetOne Students Sample.ada_hex)
       (Sample.request None []) =
     (Some d', Some (json 404 (message (Noun Students ++ " not found"))))).
Proof.
  intros bearer.
  apply (delete_removes_document Sample.penv Sample.db Sample.env Sample.env bearer
           {| authorization := authorization bearer; req_body := req_body bearer;
              user := Some {| userId := 7%N; iat := 5%N; exp := 3605%N |} |}
           (Sample.request None []) Students Sample.ada_hex Sample.ada_id
           (Sample.ada_id, Sample.ada)).
  - vm_compute. reflexivity.
  - reflexivity.
  - reflexivity.
Defined.

(** X4: PUT is idempotent.  When a PUT that the gate has passed answers 204,
    the same PUT sent again (and passed again by the gate) answers 204 and
    leaves the store exactly as the first one left it. *)
Theorem put_is_idempotent `{Libs} (penv : ProcessEnv) (d : DB) (e e2 : Env)
    (req req' req2' : Request) (r : Resource) (id : string) (db1 : option DB) :
  Api.handle penv (Some d) e (Put r id) req = (db1, Some (empty 204)) ->
  Api.authMiddleware penv (Some d) e req = Next req' ->
  Api.authMiddleware penv db1 e2 req = Next req2' ->
  Api.handle penv db1 e2 (Put r id) req = (db1, Some (empty 204)).
Proof.
  intros Hput Hg Hg2.
  unfold Api.handle, Api.app, run in Hput. rewrite Hg in Hput.
  pose proof (gate_next penv _ _ _ _ Hg) as Hb.
  unfold Api.put, ObjectId_isValid, new_ObjectId in Hput.
  destruct (ObjectId_parse id) as [o|] eqn:Hp; simpl in Hput; [|done].
  rewrite incomplete_updated, Hb in Hput.
  destruct (incomplete r (req_body req)) eqn:Hc; simpl in Hput; [done|].
  destruct ((replaceOne o (obj (picked r (req_body req))) (collection r d)).2 =? 0)%N
    eqn:Hm; simpl in Hput; [done|].
  injection Hput as <-.
  rewrite (put_passed penv _ e2 req req2' r id o Hg2 Hp Hc).
  rewrite collection_with_collection, replaceOne_twice, Hm.
  by destruct r.
Qed.

Lemma put_is_idempotent_witness :
  let bearer := Sample.request (Some ("Bearer " ++ Sample.token)) Sample.grace in
  let after := Some {| users := users Sample.db;
                       students := [(Sample.ada_id, obj Sample.grace)];
                       courses := courses Sample.db |} in
  Api.handle Sample.penv after Sample.env (Put Students Sample.ada_hex) bearer =
  (after, Some (empty 204)).
Proof.
  intros bearer after.
  pose (passed := {| authorization := authorization bearer;
                     req_body := req_body bearer;
                     user := Some {| userId := 7%N; iat := 5%N; exp := 3605%N |} |}).
  apply (put_is_idempotent Sample.penv Sample.db Sample.env Sample.env bearer
           passed passed Students Sample.ada_hex after).
  - vm_compute. reflexivity.
  - vm_compute. reflexivity.
  - vm_compute. reflexivity.
Defined.

(** ** Every answer, and what it does to the store *)

Ltac listed := apply (bool_decide_unpack _); vm_compute; exact I.
Ltac untouched := left; split; [try done|split; discriminate].

Section Outcomes.
Context `{Libs} (penv : ProcessEnv).

Lemma register_outcome db e req :
  exists db' r,
    Api.handle penv db e PostRegister req = (db', Some r) /\
    status r ∈ statuses PostRegister /\
    effect db e PostRegister db' (status r).
Proof.
  unfold Api.handle, Api.app, run, Api.register.
  destruct (negb _ || negb _); simpl.
  { do 2 eexists. split; [done|]. split; [listed|untouched]. }
  destruct db as [d|]; simpl.
  2:{ do 2 eexists. split; [done|]. split; [listed|untouched]. }
  destruct (findOne_by _ _ _); simpl.
  { do 2 eexists. split; [done|]. split; [listed|untouched]. }
  destruct (bcrypt_hash _ _ _) as [hashed|msg]; simpl.
  2:{ do 2 eexists. split; [done|]. split; [listed|untouched]. }
  unfold insertOne. destruct (existsb _ _) eqn:Hfresh; simpl.
  { do 2 eexists. split; [done|]. split; [listed|untouched]. }
  do 2 eexists. split; [done|]. split; [listed|].
  right; left. do 2 eexists. split; [done|]. split; [done|]. left.
  split; [done|]. split; [by apply existsb_has_id|done].
Qed.

Lemma login_outcome db e req :
  exists r,
    Api.handle penv db e PostLogin req = (db, Some r) /\
    status r ∈ statuses PostLogin.
Proof.
  destruct db as [d|].
  - destruct (login_cases penv d e req) as (r & Hr & Hcase). exists r.
    split; [done|].
    destruct Hcase as [-> | [(msg & -> & _) | (u & k & _ & _ & _ & ->)]]; listed.
  - eexists. split; [done|]. listed.
Qed.

Lemma read_outcome db e req ep :
  match ep with GetRoot | GetAll _ | GetOne _ _ => True | _ => False end ->
  exists r,
    Api.handle penv db e ep req = (db, Some r) /\ status r ∈ statuses ep.
Proof.
  unfold Api.handle, Api.app, run.
  destruct ep as [| | |r|r id| | |]; try done; intros _.
  - eexists. split; [done|]. listed.
  - unfold Api.get_all. destruct db as [d|]; simpl;
      eexists; (split; [done|]); listed.
  - unfold Api.get_one. destruct (ObjectId_isValid id); simpl.
    2:{ eexists. split; [done|]. listed. }
    destruct db as [d|]; simpl.
    2:{ eexists. split; [done|]. listed. }
    destruct (new_ObjectId id); simpl.
    2:{ eexists. split; [done|]. listed. }
    destruct (findOne_id _ _); eexists; (split; [done|]); listed.
Qed.

Lemma post_outcome r db e req :
  exists db' resp,
    run [Api.post r] db e req = (db', Some resp) /\
    status resp ∈ statuses (Post r) /\
    effect db e (Post r) db' (status resp).
Proof.
  unfold run, Api.post. destruct (incomplete _ _); simpl.
  { do 2 eexists. split; [done|]. split; [listed|untouched]. }
  destruct db as [d|]; simpl.
  2:{ do 2 eexists. split; [done|]. split; [listed|untouched]. }
  unfold insertOne. destruct (existsb _ _) eqn:Hfresh; simpl.
  { do 2 eexists. split; [done|]. split; [listed|untouched]. }
  do 2 eexists. split; [done|]. split; [listed|].
  right; left. do 2 eexists. split; [done|]. split; [done|]. right.
  exists r. split; [done|]. split; [by apply existsb_has_id|done].
Qed.

Lemma put_outcome r id db e req :
  exists db' resp,
    run [Api.put r id] db e req = (db', Some resp) /\
    status resp ∈ statuses (Put r id) /\
    effect db e (Put r id) db' (status resp).
Proof.
  unfold run, Api.put. destruct (ObjectId_isValid id); simpl.
  2:{ do 2 eexists. split; [done|]. split; [listed|untouched]. }
  destruct (incomplete _ _); simpl.
  { do 2 eexists. split; [done|]. split; [listed|untouched]. }
  destruct db as [d|]; simpl.
  2:{ do 2 eexists. split; [done|]. split; [listed|untouched]. }
  destruct (new_ObjectId id) as [o|]; simpl.
  2:{ do 2 eexists. split; [done|]. split; [listed|untouched]. }
  destruct (_ =? 0)%N eqn:Hm; simpl.
  - do 2 eexists. split; [done|]. split; [listed|]. untouched.
    apply N.eqb_eq in Hm.
    by rewrite (replaceOne_unmatched _ _ _ Hm), with_collection_same.
  - do 2 eexists. split; [done|]. split; [listed|].
    right; right. do 5 eexists. split; [done|]. split; [done|]. by left.
Qed.

Lemma delete_outcome r id db e req :
  exists db' resp,
    run [Api.delete r id] db e req = (db', Some resp) /\
    status resp ∈ statuses (Delete r id) /\
    effect db e (Delete r id) db' (status resp).
Proof.
  unfold run, Api.delete. destruct (ObjectId_isValid id); simpl.
  2:{ do 2 eexists. split; [done|]. split; [listed|untouched]. }
  destruct db as [d|]; simpl.
  2:{ do 2 eexists. split; [done|]. split; [listed|untouched]. }
  destruct (new_ObjectId id) as [o|]; simpl.
  2:{ do 2 eexists. split; [done|]. split; [listed|untouched]. }
  destruct (_ =? 0)%N eqn:Hm; simpl.
  - do 2 eexists. split; [done|]. split; [listed|]. untouched.
    apply N.eqb_eq in Hm.
    by rewrite (deleteOne_unmatched _ _ Hm), with_collection_same.
  - do 2 eexists. split; [done|]. split; [listed|].
    right; right. exists d, r, id, o, ∅. split; [done|]. split; [done|].
    by right.
Qed.

(** Every request is answered; the status is one of those of its route, and
    the store changes as the status tells. *)
Lemma handle_outcome db e ep req :
  exists db' r,
    Api.handle penv db e ep req = (db', Some r) /\
    status r ∈ statuses ep /\
    effect db e ep db' (status r).
Proof.
  destruct ep as [| | |r|r id|r|r id|r id].
  - destruct (read_outcome db e req GetRoot I) as (r & Hr & Hs).
    exists db, r. split; [done|]. split; [done|].
    left. split; [done|]. revert Hs. clear. simpl.
    intros ->%list_elem_of_singleton. by split.
  - apply register_outcome.
  - destruct (login_outcome db e req) as (r & Hr & Hs).
    exists db, r. split; [done|]. split; [done|]. left. split; [done|].
    revert Hs. clear. simpl. rewrite !elem_of_cons, elem_of_nil.
    intros [->|[->|[->|[]]]]; by split.
  - destruct (read_outcome db e req (GetAll r) I) as (x & Hr & Hs).
    exists db, x. split; [done|]. split; [done|]. left. split; [done|].
    revert Hs. clear. simpl. rewrite !elem_of_cons, elem_of_nil.
    intros [->|[->|[]]]; by split.
  - destruct (read_outcome db e req (GetOne r id) I) as (x & Hr & Hs).
    exists db, x. split; [done|]. split; [done|]. left. split; [done|].
    revert Hs. clear. simpl. rewrite !elem_of_cons, elem_of_nil.
    intros [->|[->|[->|[->|[]]]]]; by split.
  - unfold Api.handle, Api.app. simpl.
    destruct (Api.authMiddleware penv db e req) as [db1 r1|req'] eqn:Hg.
    + apply gate_done in Hg as [-> Hs]. exists db, r1.
      split; [done|]. rewrite Hs. split; [listed|]. by left.
    + destruct (post_outcome r db e req') as (db' & x & Hx & Hs & He).
      exists db', x. simpl in Hx. by rewrite Hx.
  - unfold Api.handle, Api.app. simpl.
    destruct (Api.authMiddleware penv db e req) as [db1 r1|req'] eqn:Hg.
    + apply gate_done in Hg as [-> Hs]. exists db, r1.
      split; [done|]. rewrite Hs. split; [listed|]. by left.
    + destruct (put_outcome r id db e req') as (db' & x & Hx & Hs & He).
      exists db', x. simpl in Hx. by rewrite Hx.
  - unfold Api.handle, Api.app. simpl.
    destruct (Api.authMiddleware penv db e req) as [db1 r1|req'] eqn:Hg.
    + apply gate_done in Hg as [-> Hs]. exists db, r1.
      split; [done|]. rewrite Hs. split; [listed|]. by left.
    + destruct (delete_outcome r id db e req') as (db' & x & Hx & Hs & He).
      exists db', x. simpl in Hx. by rewrite Hx.
Qed.
End Outcomes.

(** X5: an answer given by a route (the gate or the handler behind it) has a
    status of that route and no other: GET / 200; register 201, 400 or 500;
    login 200, 401 or 500; GET on a collection 200 or 500; GET on a document
    200, 400, 404 or 500; POST on a resource 201, 400, 401 or 500; PUT and
    DELETE 204, 400, 401, 404 or 500.  (What [express.json()] answers before
    the routes, and a store call that never returns, are not answers of a
    route.) *)
Theorem status_table `{Libs} (penv : ProcessEnv) (db db' : option DB) (e : Env)
    (ep : Endpoint) (req : Request) (r : Response) :
  Api.handle penv db e ep req = (db', Some r) ->
  status r ∈ statuses ep.
Proof.
  intros Hh.
  destruct (handle_outcome penv db e ep req) as (db1 & r1 & Hr & Hs & _).
  rewrite Hh in Hr. by injection Hr as <- <-.
Qed.

Lemma status_table_witness :
  404%N ∈ statuses (Put Students Sample.other_hex).
Proof.
  apply (status_table Sample.penv (Some Sample.db) (Some Sample.db) Sample.env
           (Put Students Sample.other_hex)
           (Sample.request (Some ("Bearer " ++ Sample.token)) Sample.grace)
           (json 404 (message "Student not found"))).
  vm_compute. reflexivity.
Defined.

(** X6: only an answer 201 or 204 goes with a change of the store.  Under any
    other status (200, 400, 401, 404, 500) [db] is exactly as it was, on
    every route. *)
Theorem other_statuses_leave_store `{Libs} (penv : ProcessEnv) (db db' : option DB)
    (e : Env) (ep : Endpoint) (req : Request) (r : Response) :
  Api.handle penv db e ep req = (db', Some r) ->
  status r <> 201%N -> status r <> 204%N ->
  db' = db.
Proof.
  intros Hh H201 H204.
  destruct (handle_outcome penv db e ep req) as (db1 & r1 & Hr & _ & He).
  rewrite Hh in Hr. injection Hr as <- <-.
  destruct He as [[? _] | [(d & doc & _ & ? & _) | (d & x & id & o & doc & _ & ? & _)]];
    done.
Qed.

Lemma other_statuses_leave_store_witness :
  let out := Api.handle Sample.penv (Some Sample.db) Sample.env
               (Put Students Sample.other_hex)
               (Sample.request (Some ("Bearer " ++ Sample.token)) Sample.grace) in
  out.1 = Some Sample.db.
Proof.
  intros out.
  apply (other_statuses_leave_store Sample.penv (Some Sample.db) out.1
           Sample.env (Put Students Sample.other_hex)
           (Sample.request (Some ("Bearer " ++ Sample.token)) Sample.grace)
           (json 404 (message "Student not found"))).
  - vm_compute. reflexivity.
  - discriminate.
  - discriminate.
Defined.

(** ** Invariants of the store *)

Lemma ids_app (c : Collection) (o : ObjectId) (doc : Obj) :
  ids (c ++ [(o, doc)]) = (ids c ++ [o])%list.
Proof. unfold ids. by rewrite fmap_app. Qed.

Lemma unique_ids_insert (c : Collection) (o : ObjectId) (doc : Obj) :
  NoDup (ids c) -> o ∉ ids c -> NoDup (ids (c ++ [(o, doc)])).
Proof.
  intros Hc Ho. rewrite ids_app. apply NoDup_app. split; [done|].
  split; [|apply NoDup_singleton].
  intros x Hx ->%list_elem_of_singleton. done.
Qed.

Lemma unique_ids_with_collection (r : Resource) (d : DB) (c : Collection) :
  unique_ids d -> NoDup (ids c) -> unique_ids (with_collection r d c).
Proof. intros (Hu & Hs & Hc) Hn. by destruct r. Qed.

Lemma unique_ids_collection (r : Resource) (d : DB) :
  unique_ids d -> NoDup (ids (collection r d)).
Proof. intros (Hu & Hs & Hc). by destruct r. Qed.

Section Invariants.
Context `{Libs} (penv : ProcessEnv).

(** One request keeps the store connected and keeps every user document in
    place; it keeps identifiers unique when they are. *)
Lemma handle_keeps d e ep req :
  exists d',
    (Api.handle penv (Some d) e ep req).1 = Some d' /\
    users d `prefix_of` users d' /\
    (unique_ids d -> unique_ids d').
Proof.
  destruct (handle_outcome penv (Some d) e ep req) as (db' & r & Hr & _ & He).
  rewrite Hr. simpl.
  destruct He as [[-> _] | [(d0 & doc & [= <-] & _ & Hins)
                          | (d0 & x & id & o & doc & [= <-] & _ & Hch)]].
  - by exists d.
  - destruct Hins as [(_ & Hfresh & ->) | (x & _ & Hfresh & ->)].
    + eexists. split; [done|]. split; [by apply prefix_app_r|].
      intros (Hu & Hs & Hc). split; [by apply unique_ids_insert|done].
    + eexists. split; [done|]. split; [by destruct x|].
      intros Hd. apply unique_ids_with_collection; [done|].
      apply unique_ids_insert; [by apply unique_ids_collection|done].
  - destruct Hch as [[_ ->] | [_ ->]].
    + eexists. split; [done|]. split; [by destruct x|].
      intros Hd. apply unique_ids_with_collection; [done|].
      rewrite replaceOne_ids. by apply unique_ids_collection.
    + eexists. split; [done|]. split; [by destruct x|].
      intros Hd. apply unique_ids_with_collection; [done|].
      by apply deleteOne_ids_unique, unique_ids_collection.
Qed.

Lemma serve_all_keeps port d rs :
  exists d',
    (Api.serve_all penv (Listening port (Some d)) rs).1 = Listening port (Some d') /\
    users d `prefix_of` users d' /\
    (unique_ids d -> unique_ids d').
Proof.
  revert d. induction rs as [|[[e ep] req] rs IH]; intros d; simpl.
  - by exists d.
  - destruct (handle_keeps d e ep req) as (d1 & H1 & Hp1 & Hu1).
    destruct (Api.handle penv (Some d) e ep req) as [db1 r1]. simpl in H1.
    subst db1.
    destruct (IH d1) as (d2 & H2 & Hp2 & Hu2).
    destruct (Api.serve_all penv (Listening port (Some d1)) rs) as [p out].
    simpl in *. exists d2. split; [done|].
    split; [by transitivity (users d1)|auto].
Qed.
End Invariants.

(** X7: an insert whose [_id] is already taken is refused, and identifiers
    stay unique.  A POST the gate has passed, with a complete body, and a
    registration of a new email with a string password answer 500 with the
    duplicate key error, the store unchanged, when the generated [_id] is
    already in the collection.  So a store in which no collection holds an
    [_id] twice stays so, and stays connected, after any sequence of
    requests. *)
Theorem unique_ids_are_kept `{Libs} (penv : ProcessEnv) (port : Value) (d : DB)
    (rs : list (Env * Endpoint * Request)) :
  unique_ids d ->
  let refused :=
    (Some d, Some (json 500 (error "E11000 duplicate key error collection"))) in
  (forall e req req' r,
     Api.authMiddleware penv (Some d) e req = Next req' ->
     incomplete r (req_body req) = false ->
     fresh_id e ∈ ids (collection r d) ->
     Api.handle penv (Some d) e (Post r) req = refused) /\
  (forall e req pw,
     truthy (get (req_body req) "email") = true ->
     get (req_body req) "password" = VStr pw -> pw <> "" ->
     findOne_by "email" (get (req_body req) "email") (users d) = None ->
     fresh_id e ∈ ids (users d) ->
     Api.handle penv (Some d) e PostRegister req = refused) /\
  exists d',
    (Api.serve_all penv (Listening port (Some d)) rs).1 = Listening port (Some d') /\
    unique_ids d'.
Proof.
  intros Hd refused. subst refused.
  assert (Htaken : forall o c, o ∈ ids c -> existsb (has_id o) c = true).
  { intros o c Ho. destruct (existsb (has_id o) c) eqn:Hx; [done|].
    by apply existsb_has_id in Hx. }
  split; [|split].
  - intros e req req' r Hg Hc Hin.
    pose proof (gate_next penv _ _ _ _ Hg) as Hb.
    unfold Api.handle, Api.app, run. rewrite Hg. unfold Api.post.
    rewrite incomplete_created, Hb, Hc. simpl. unfold insertOne.
    by rewrite (Htaken _ _ Hin).
  - intros e req pw He Hp Hpw%truthy_str Hf Hin.
    unfold Api.handle, Api.app, run, Api.register.
    rewrite Hp, He, Hpw. simpl. rewrite Hf. simpl. unfold insertOne.
    by rewrite (Htaken _ _ Hin).
  - destruct (serve_all_keeps penv port d rs) as (d' & ? & _ & Hu).
    exists d'. auto.
Qed.

Lemma unique_ids_are_kept_witness :
  let bearer := Sample.request (Some ("Bearer " ++ Sample.token)) Sample.grace in
  let taken := {| now := 5000%N; fresh_id := Sample.ada_id; salt := "" |} in
  Api.handle Sample.penv (Some Sample.db) taken (Post Students) bearer =
    (Some Sample.db, Some (json 500 (error "E11000 duplicate key error collection"))) /\
  exists d',
    (Api.serve_all Sample.penv (Listening (VNum 3000) (Some Sample.db))
       [(Sample.env, PostRegister, Sample.request None Sample.credentials);
        (Sample.env, Post Students, bearer);
        (Sample.env, Post Students, bearer)]).1 =
    Listening (VNum 3000) (Some d') /\
    unique_ids d'.
Proof.
  intros bearer taken.
  assert (Hu : unique_ids Sample.db).
  { repeat split; apply (bool_decide_unpack _); vm_compute; exact I. }
  destruct (unique_ids_are_kept Sample.penv (VNum 3000) Sample.db
              [(Sample.env, PostRegister, Sample.request None Sample.credentials);
               (Sample.env, Post Students, bearer);
               (Sample.env, Post Students, bearer)] Hu) as (Hpost & _ & Hkept).
  split; [|exact Hkept].
  apply (Hpost taken bearer
           {| authorization := authorization bearer; req_body := req_body bearer;
              user := Some {| userId := 7%N; iat := 5%N; exp := 3605%N |} |}
           Students).
  - vm_compute. reflexivity.
  - vm_compute. reflexivity.
  - apply (bool_decide_unpack _). vm_compute. exact I.
Defined.

Section Users.
Context `{Libs} (penv : ProcessEnv).

(** One request leaves the users as they were, unless it is a registration
    answered 201, which appends one document. *)
Lemma handle_users d e ep req :
  exists d' added,
    (Api.handle penv (Some d) e ep req).1 = Some d' /\
    users d' = (users d ++ added)%list /\
    length added =
      if registered ep (Api.handle penv (Some d) e ep req).2 then 1%nat else 0%nat.
Proof.
  destruct (handle_outcome penv (Some d) e ep req) as (db' & r & Hr & _ & He).
  rewrite Hr. simpl.
  destruct He as [(-> & H201 & _) | [(d0 & doc & [= <-] & Hs & Hins)
                                    | (d0 & x & id & o & doc & [= <-] & Hs & Hch)]].
  - exists d, []. rewrite app_nil_r. split; [done|]. split; [done|].
    unfold registered. destruct ep; try done.
    by destruct (N.eqb_spec (status r) 201).
  - destruct Hins as [(-> & _ & ->) | (x & -> & _ & ->)].
    + eexists _, [_]. split; [done|]. split; [done|]. simpl. by rewrite Hs.
    + exists (with_collection x d (collection x d ++ [(fresh_id e, doc)])), [].
      rewrite app_nil_r. split; [done|]. split; [by destruct x|done].
  - destruct Hch as [[-> ->] | [-> ->]]; eexists _, []; rewrite app_nil_r;
      (split; [done|]); (split; [by destruct x|done]).
Qed.

Lemma serve_all_users port d rs :
  exists d' added,
    (Api.serve_all penv (Listening port (Some d)) rs).1 = Listening port (Some d') /\
    users d' = (users d ++ added)%list /\
    length added =
      registrations rs (Api.serve_all penv (Listening port (Some d)) rs).2.
Proof.
  revert d. induction rs as [|[[e ep] req] rs IH]; intros d; simpl.
  - exists d, []. by rewrite app_nil_r.
  - destruct (handle_users d e ep req) as (d1 & a1 & H1 & Hu1 & Hl1).
    destruct (Api.handle penv (Some d) e ep req) as [db1 r1]. simpl in *.
    subst db1.
    destruct (IH d1) as (d2 & a2 & H2 & Hu2 & Hl2).
    destruct (Api.serve_all penv (Listening port (Some d1)) rs) as [p out].
    simpl in *. exists d2, (a1 ++ a2)%list. split; [done|].
    split; [by rewrite Hu2, Hu1, app_assoc|].
    rewrite length_app. lia.
Qed.
End Users.

(** X8: user documents are never changed or removed, and only a registration
    answered 201 adds one.  After any sequence of requests the users
    collection is the one the server started with, unchanged and in the same
    order, followed by as many documents as there were registrations
    answered 201. *)
Theorem users_only_grow `{Libs} (penv : ProcessEnv) (port : Value) (d : DB)
    (rs : list (Env * Endpoint * Request)) :
  exists d' added,
    (Api.serve_all penv (Listening port (Some d)) rs).1 = Listening port (Some d') /\
    users d' = (users d ++ added)%list /\
    length added =
      registrations rs (Api.serve_all penv (Listening port (Some d)) rs).2.
Proof. apply serve_all_users. Qed.

(** Of a registration, a login, a POST and a DELETE, only the registration
    adds a user. *)
Example users_only_grow_sample :
  let bearer := Some ("Bearer " ++ Sample.token) in
  let run :=
    Api.serve_all Sample.penv (Listening (VNum 3000) (Some Sample.db))
      [(Sample.env, PostRegister,
        Sample.request None [("email", VStr "c@d.org"); ("password", VStr "pw2")]);
       (Sample.env, PostLogin, Sample.request None Sample.credentials);
       (Sample.env, Post Students, Sample.request bearer Sample.grace);
       (Sample.env, Delete Students Sample.ada_hex, Sample.request bearer [])] in
  registrations
    [(Sample.env, PostRegister,
      Sample.request None [("email", VStr "c@d.org"); ("password", VStr "pw2")]);
     (Sample.env, PostLogin, Sample.request None Sample.credentials);
     (Sample.env, Post Students, Sample.request bearer Sample.grace);
     (Sample.env, Delete Students Sample.ada_hex, Sample.request bearer [])]
    run.2 = 1%nat /\
  match run.1 with
  | Listening _ (Some d') => length (users d') = 2%nat
  | _ => False
  end.
Proof. vm_compute. done. Qed.

(** ** A store that never connected *)

(** X9: a failed connection does not stop the server.  With JWT_SECRET set,
    startup ends listening even when [client.connect()] failed, [db] staying
    undefined.  Then GET / still answers its text, GET on a collection answers
    500 with the message of the TypeError, and every other route answers 400,
    401 or 500: never a 2xx and never a 404. *)
Theorem failed_connection_serves_no_data `{Libs} (penv : ProcessEnv) (e : Env)
    (ep : Endpoint) (req : Request) :
  unset (JWT_SECRET penv) = false ->
  Api.startup penv None = Listening (port_of penv) None /\
  exists r,
    Api.handle penv None e ep req = (None, Some r) /\
    match ep with
    | GetRoot => r = text "Student Management API is running"
    | GetAll _ =>
        r = json 500 (error "Cannot read properties of undefined (reading 'collection')")
    | _ => status r ∈ [400; 401; 500]%N
    end.
Proof.
  intros Hs. unfold Api.startup. rewrite Hs. split; [done|].
  unfold Api.handle, Api.app.
  destruct ep as [| | |r|r id|r|r id|r id]; unfold run.
  - by eexists.
  - unfold Api.register. destruct (negb _ || negb _); simpl;
      eexists; (split; [done|]); listed.
  - eexists. split; [done|]. listed.
  - by eexists.
  - unfold Api.get_one. destruct (ObjectId_isValid id); simpl;
      eexists; (split; [done|]); listed.
  - destruct (Api.authMiddleware penv None e req) as [db1 r1|req'] eqn:Hg.
    + apply gate_done in Hg as [-> Hr]. eexists. split; [done|].
      rewrite Hr. listed.
    + unfold Api.post. destruct (incomplete _ _); simpl;
        eexists; (split; [done|]); listed.
  - destruct (Api.authMiddleware penv None e req) as [db1 r1|req'] eqn:Hg.
    + apply gate_done in Hg as [-> Hr]. eexists. split; [done|].
      rewrite Hr. listed.
    + unfold Api.put. destruct (ObjectId_isValid id); simpl;
        [destruct (incomplete _ _); simpl|];
        eexists; (split; [done|]); listed.
  - destruct (Api.authMiddleware penv None e req) as [db1 r1|req'] eqn:Hg.
    + apply gate_done in Hg as [-> Hr]. eexists. split; [done|].
      rewrite Hr. listed.
    + unfold Api.delete. destruct (ObjectId_isValid id); simpl;
        eexists; (split; [done|]); listed.
Qed.

Lemma failed_connection_serves_no_data_witness :
  Api.startup Sample.penv None = Listening (port_of Sample.penv) None /\
  exists r,
    Api.handle Sample.penv None Sample.env (GetAll Courses) (Sample.request None []) =
      (None, Some r) /\
    r = json 500 (error "Cannot read properties of undefined (reading 'collection')").
Proof.
  apply (failed_connection_serves_no_data Sample.penv Sample.env (GetAll Courses)
           (Sample.request None [])).
  reflexivity.
Defined.

(** ** Logging in *)

(** X10: a login whose email selects a stored user and whose password
    [bcrypt.compare] accepts answers 200 with a token, and [db] is unchanged.
    The token names that user: presented as ["Bearer <token>"] before it
    expires, it makes the gate set [req.user] to the [_id] of the user, the
    clock of the login as [iat] and one hour later as [exp]. *)
Theorem login_token_names_user `{Libs} (penv : ProcessEnv) (d : DB) (e : Env)
    (req : Request) (u : ObjectId * Obj) (k : string) :
  findOne_by "email" (get (req_body req) "email") (users d) = Some u ->
  bcrypt_compare (get (req_body req) "password") (get u.2 "password") = Ok true ->
  JWT_SECRET penv = Some k -> k <> "" ->
  exists tok,
    Api.handle penv (Some d) e PostLogin req =
      (Some d, Some (json 200 (VObj (obj [("token", VStr tok)])))) /\
    (forall db' e' q,
       authorization q = Some ("Bearer " ++ tok) ->
       (clock e' < clock e + one_hour)%N ->
       Api.authMiddleware penv db' e' q =
       Next {| authorization := authorization q; req_body := req_body q;
               user := Some {| userId := u.1; iat := clock e;
                               exp := (clock e + one_hour)%N |} |}).
Proof.
  intros Hf Hc Hk Hne.
  exists (jws_sign u.1 k (clock e) (clock e + one_hour)). split.
  - unfold Api.handle, Api.app, run, Api.login. simpl. rewrite Hf. simpl.
    rewrite Hc. simpl. unfold jwt_sign, unset. rewrite Hk.
    apply truthy_str in Hne. by rewrite Hne.
  - intros db' e' q Hq Hlt.
    destruct (issued_token_verifies u.1 k (clock e) (clock e + one_hour) (clock e'))
      as [Hfree Hv]; [done|unfold one_hour; lia|].
    assert (Hsplit :
      split space ("Bearer " ++ jws_sign u.1 k (clock e) (clock e + one_hour))
        !! 1%nat = Some (jws_sign u.1 k (clock e) (clock e + one_hour))).
    { by apply (split_word_token "Bearer"). }
    eapply gate_good_token; [done|done|].
    rewrite Hsplit, Hk, Hv. apply N.ltb_lt in Hlt. by rewrite Hlt.
Qed.

Lemma login_token_names_user_witness :
  exists tok,
    Api.handle Sample.penv (Some Sample.db) Sample.env PostLogin
      (Sample.request None Sample.credentials) =
      (Some Sample.db, Some (json 200 (VObj (obj [("token", VStr tok)])))) /\
    (forall db' e' q,
       authorization q = Some ("Bearer " ++ tok) ->
       (clock e' < clock Sample.env + one_hour)%N ->
       Api.authMiddleware Sample.penv db' e' q =
       Next {| authorization := authorization q; req_body := req_body q;
               user := Some {| userId := 7%N; iat := clock Sample.env;
                               exp := (clock Sample.env + one_hour)%N |} |}).
Proof.
  apply (login_token_names_user Sample.penv Sample.db Sample.env
           (Sample.request None Sample.credentials)
           (7%N, obj [("email", VStr "a@b.com");
                      ("password", VStr (Ref.digest 10%N "saltsaltsaltsaltsaltsa" "pw"));
                      ("createdAt", VDate 500%N)])
           "s3cret").
  - vm_compute. reflexivity.
  - vm_compute. reflexivity.
  - reflexivity.
  - discriminate.
Defined.

(** X11: a registered user can log in.  After a registration answered 201 (a
    non-empty email not yet present, a non-empty password, a fresh [_id]), a
    login with the same email and password answers 200 with a token for the
    new user's [_id], provided bcrypt accepts a password against its own
    digest and JWT_SECRET is set. *)
Theorem registered_user_logs_in `{Libs} (penv : ProcessEnv) (d : DB) (e1 e2 : Env)
    (req : Request) (em pw k : string) :
  get (req_body req) "email" = VStr em -> em <> "" ->
  get (req_body req) "password" = VStr pw -> pw <> "" ->
  findOne_by "email" (VStr em) (users d) = None ->
  fresh_id e1 ∉ ids (users d) ->
  bcrypt_check pw (bcrypt_digest 10 (salt e1) pw) = true ->
  JWT_SECRET penv = Some k -> k <> "" ->
  exists d1,
    (Api.handle penv (Some d) e1 PostRegister req).1 = Some d1 /\
    Api.handle penv (Some d1) e2 PostLogin req =
      (Some d1, Some (json 200 (VObj (obj [("token",
          VStr (jws_sign (fresh_id e1) k (clock e2) (clock e2 + one_hour)))])))).
Proof.
  intros He Hem Hp Hpw Hnone Hfresh Hcheck Hk Hne.
  apply truthy_str in Hem, Hpw, Hne. apply existsb_has_id in Hfresh.
  set (user := obj [("email", VStr em);
                    ("password", VStr (bcrypt_digest 10 (salt e1) pw));
                    ("createdAt", VDate (now e1))]).
  exists (with_users d (users d ++ [(fresh_id e1, user)])). split.
  - unfold Api.handle, Api.app, run, Api.register.
    rewrite He, Hp, Hem, Hpw. simpl. rewrite Hnone. simpl.
    unfold insertOne. by rewrite Hfresh.
  - destruct (get_user_fields (VStr em) (bcrypt_digest 10 (salt e1) pw) (now e1))
      as [Hge Hgp]. fold user in Hge, Hgp.
    unfold Api.handle, Api.app, run, Api.login. simpl. rewrite He, Hp.
    unfold findOne_by in *. rewrite find_app_none by done. simpl.
    rewrite Hge, filter_match_str, String.eqb_refl. simpl.
    rewrite Hgp. simpl. rewrite Hcheck. simpl.
    unfold jwt_sign, unset. rewrite Hk, Hne. done.
Qed.

Lemma registered_user_logs_in_witness :
  let req := Sample.request None [("email", VStr "c@d.org"); ("password", VStr "hunter2")] in
  let later := {| now := 9000%N; fresh_id := 43%N; salt := "" |} in
  exists d1,
    (Api.handle Sample.penv (Some Sample.db) Sample.env PostRegister req).1 = Some d1 /\
    Api.handle Sample.penv (Some d1) later PostLogin req =
      (Some d1, Some (json 200 (VObj (obj [("token",
          VStr (jws_sign (fresh_id Sample.env) "s3cret" (clock later)
                  (clock later + one_hour)))])))).
Proof.
  intros req later.
  apply (registered_user_logs_in Sample.penv Sample.db Sample.env later req
           "c@d.org" "hunter2" "s3cret").
  - reflexivity.
  - discriminate.
  - reflexivity.
  - discriminate.
  - reflexivity.
  - apply (bool_decide_unpack _). vm_compute. exact I.
  - vm_compute. reflexivity.
  - reflexivity.
  - discriminate.
Defined.

(** X12: the login route does not check that a password is present.  When
    the body holds no string under [password] (the field is missing, or a
    number, a boolean, an object), an email that selects no user is answered
    401 [{ message: "Invalid credentials" }], but an email that selects a user
    makes [bcrypt.compare] throw and is answered 500: the two answers differ. *)
Theorem login_without_string_password `{Libs} (penv : ProcessEnv) (d : DB)
    (e : Env) (req : Request) :
  (forall s, get (req_body req) "password" <> VStr s) ->
  (findOne_by "email" (get (req_body req) "email") (users d) = None ->
   Api.handle penv (Some d) e PostLogin req =
   (Some d, Some (json 401 (message "Invalid credentials")))) /\
  (forall u,
     findOne_by "email" (get (req_body req) "email") (users d) = Some u ->
     exists msg,
       Api.handle penv (Some d) e PostLogin req =
       (Some d, Some (json 500 (error msg)))).
Proof.
  intros Hp. split; [apply login_unknown_email|].
  intros u Hf. unfold Api.handle, Api.app, run, Api.login. simpl.
  rewrite Hf. simpl. unfold bcrypt_compare.
  destruct (get (req_body req) "password") as [| | | |s| | | |] eqn:Hg;
    try (by destruct (Hp s));
    destruct (get u.2 "password"); simpl; by eexists.
Qed.

Lemma login_without_string_password_witness :
  let known := Sample.request None [("email", VStr "a@b.com")] in
  let unknown := Sample.request None [("email", VStr "nobody@b.com")] in
  Api.handle Sample.penv (Some Sample.db) Sample.env PostLogin unknown =
    (Some Sample.db, Some (json 401 (message "Invalid credentials"))) /\
  exists msg,
    Api.handle Sample.penv (Some Sample.db) Sample.env PostLogin known =
    (Some Sample.db, Some (json 500 (error msg))).
Proof.
  intros known unknown. split.
  - apply (proj1 (login_without_string_password Sample.penv Sample.db Sample.env
                    unknown (fun s => ltac:(discriminate)))).
    reflexivity.
  - apply (proj2 (login_without_string_password Sample.penv Sample.db Sample.env
                    known (fun s => ltac:(discriminate)))
             (7%N, obj [("email", VStr "a@b.com");
                        ("password", VStr (Ref.digest 10%N "saltsaltsaltsaltsaltsa" "pw"));
                        ("createdAt", VDate 500%N)])).
    vm_compute. reflexivity.
Defined.

(** ** What the gate reads of the header *)

Section Header.
Context `{Libs} (penv : ProcessEnv).

(** The handlers read the body and nothing else of the request. *)
Lemma routes_read_body db e ep q1 q2 :
  req_body q1 = req_body q2 ->
  resource_write ep = false ->
  Api.handle penv db e ep q1 = Api.handle penv db e ep q2.
Proof.
  intros Hb Hep. unfold Api.handle, Api.app.
  destruct ep; try discriminate Hep; unfold run;
    unfold Api.root, Api.register, Api.login, Api.get_all, Api.get_one;
    by rewrite ?Hb.
Qed.

(** Two headers with the same second component are treated alike. *)
Lemma same_token_same_answer db e ep req h1 h2 :
  h1 <> "" -> h2 <> "" ->
  split space h1 !! 1%nat = split space h2 !! 1%nat ->
  Api.handle penv db e ep (with_header req h1) =
  Api.handle penv db e ep (with_header req h2).
Proof.
  intros H1%truthy_str H2%truthy_str Hs.
  destruct (resource_write ep) eqn:Hep; [|by apply routes_read_body].
  unfold Api.handle, Api.app.
  simpl in H1, H2.
  destruct ep; try discriminate Hep; unfold run, Api.authMiddleware; simpl;
    rewrite H1, H2, Hs; simpl;
    by destruct (jwt_verify _ _ _).
Qed.
End Header.

(** X13: the gate verifies the second space-separated component of the
    header and nothing else.  Whatever follows a second space is ignored:
    ["<word> <token> <rest>"] is answered on every route exactly as
    ["<word> <token>"].  And two spaces between the word and the token make
    the second component empty, so every gated route answers 401
    [{ message: "Invalid token" }] even when the token is valid. *)
Theorem gate_reads_second_component `{Libs} (penv : ProcessEnv) (db : option DB)
    (e : Env) (ep : Endpoint) (req : Request) (word token rest : string) :
  free_of space word = true -> free_of space token = true ->
  Api.handle penv db e ep
    (with_header req (word ++ String space (token ++ String space rest))) =
  Api.handle penv db e ep (with_header req (word ++ String space token)) /\
  (resource_write ep = true ->
   Api.handle penv db e ep
     (with_header req (word ++ String space (String space token))) =
   (db, Some (json 401 (message "Invalid token")))).
Proof.
  intros Hw Ht. split.
  - apply same_token_same_answer; [by destruct word..|].
    rewrite (split_app_sep space word (token ++ String space rest)) by done.
    rewrite (split_app_sep space token rest) by done.
    rewrite (split_app_sep space word token) by done.
    by rewrite (split_free space token).
  - intros Hep. apply gated_route; [done|].
    apply gate_bad_token with (word ++ String space (String space token))
                               "jwt must be provided"; [done|by destruct word|].
    rewrite split_app_sep by done. done.
Qed.

Lemma gate_reads_second_component_witness :
  let req := Sample.request None Sample.grace in
  Api.handle Sample.penv (Some Sample.db) Sample.env (Post Students)
    (with_header req ("Bearer" ++ String space (Sample.token ++ String space "junk"))) =
  Api.handle Sample.penv (Some Sample.db) Sample.env (Post Students)
    (with_header req ("Bearer" ++ String space Sample.token)) /\
  (resource_write (Post Students) = true ->
   Api.handle Sample.penv (Some Sample.db) Sample.env (Post Students)
     (with_header req ("Bearer" ++ String space (String space Sample.token))) =
   (Some Sample.db, Some (json 401 (message "Invalid token")))).
Proof.
  intros req.
  apply (gate_reads_second_component Sample.penv (Some Sample.db) Sample.env
           (Post Students) req "Bearer" Sample.token "junk").
  - reflexivity.
  - vm_compute. reflexivity.
Defined.

(** ** The older server *)

(** X14: in src/server.js, [new require("mongodb").ObjectId(id)] calls
    [ObjectId] without [new].  With a driver whose [ObjectId] is a class, PUT
    and DELETE on /students/:id therefore answer 500 for every identifier and
    every body, and never touch the store. *)
Theorem legacy_update_and_delete_always_fail `{Libs} (db : option DB) (e : Env)
    (id : string) (req : Request) :
  ObjectId_callable = false ->
  let failed :=
    (db, Some (json 500 (error "Class constructor ObjectId cannot be invoked without 'new'"))) in
  Legacy.handle db e (Put Students id) req = failed /\
  Legacy.handle db e (Delete Students id) req = failed.
Proof.
  intros Hc failed. subst failed.
  unfold Legacy.handle, Legacy.app, run, Legacy.put_students,
    Legacy.delete_students, Legacy.ObjectId_call.
  by rewrite Hc.
Qed.

Lemma legacy_update_and_delete_always_fail_witness :
  let failed :=
    (Some Sample.db,
     Some (json 500 (error "Class constructor ObjectId cannot be invoked without 'new'"))) in
  Legacy.handle (Some Sample.db) Sample.env (Put Students Sample.ada_hex)
    (Sample.request None Sample.grace) = failed /\
  Legacy.handle (Some Sample.db) Sample.env (Delete Students Sample.ada_hex)
    (Sample.request None Sample.grace) = failed.
Proof.
  apply (legacy_update_and_delete_always_fail (Some Sample.db) Sample.env
           Sample.ada_hex (Sample.request None Sample.grace)).
  reflexivity.
Defined.

(** X15: the current server is the older one plus the gate and the check of
    the identifier.  GET / and GET /students answer the same in both, for
    every request.  For a request the gate passes, POST /students writes the
    same document in both and answers 201 in both (the messages differ), and,
    with a driver whose [ObjectId] may be called without [new] and a
    well-formed identifier, PUT and DELETE on /students/:id answer the same
    and write the same. *)
Theorem current_server_extends_legacy `{Libs} (penv : ProcessEnv) (db : option DB)
    (e : Env) (req : Request) (id : string) :
  Legacy.handle db e GetRoot req = Api.handle penv db e GetRoot req /\
  Legacy.handle db e (GetAll Students) req = Api.handle penv db e (GetAll Students) req /\
  (forall req',
     Api.authMiddleware penv db e req = Next req' ->
     (Legacy.handle db e (Post Students) req).1 =
       (Api.handle penv db e (Post Students) req).1 /\
     status <$> (Legacy.handle db e (Post Students) req).2 =
       status <$> (Api.handle penv db e (Post Students) req).2 /\
     (ObjectId_callable = true -> ObjectId_isValid id = true ->
      Legacy.handle db e (Put Students id) req =
        Api.handle penv db e (Put Students id) req /\
      Legacy.handle db e (Delete Students id) req =
        Api.handle penv db e (Delete Students id) req)).
Proof.
  split; [done|]. split; [done|].
  intros req' Hg. pose proof (gate_next penv _ _ _ _ Hg) as Hb.
  unfold Legacy.handle, Api.handle, Legacy.app, Api.app, run. rewrite Hg.
  unfold Legacy.post_students, Api.post, Api.created. rewrite Hb.
  split; [|split].
  - destruct (incomplete _ _); simpl; [done|].
    destruct db as [d|]; simpl; [|done].
    by destruct (insertOne _ _ _).
  - destruct (incomplete _ _); simpl; [done|].
    destruct db as [d|]; simpl; [|done].
    by destruct (insertOne _ _ _).
  - intros Hc Hv.
    unfold Legacy.put_students, Legacy.delete_students, Legacy.ObjectId_call,
      Api.put, Api.delete.
    rewrite Hc, Hv, Hb. simpl.
    unfold ObjectId_isValid, new_ObjectId in *.
    destruct (ObjectId_parse id) as [o|]; [|done]. simpl. split.
    + destruct (incomplete _ _); simpl; [done|].
      by destruct db.
    + by destruct db.
Qed.

Lemma current_server_extends_legacy_witness :
  let anyone := Sample.request None [] in
  let bearer := Sample.request (Some ("Bearer " ++ Sample.token)) Sample.grace in
  @Legacy.handle (ref_with true) (Some Sample.db) Sample.env (GetAll Students) anyone =
    @Api.handle (ref_with true) Sample.penv (Some Sample.db) Sample.env
      (GetAll Students) anyone /\
  (@Legacy.handle (ref_with true) (Some Sample.db) Sample.env (Post Students) bearer).1 =
    (@Api.handle (ref_with true) Sample.penv (Some Sample.db) Sample.env
       (Post Students) bearer).1 /\
  @Legacy.handle (ref_with true) (Some Sample.db) Sample.env
    (Put Students Sample.ada_hex) bearer =
  @Api.handle (ref_with true) Sample.penv (Some Sample.db) Sample.env
    (Put Students Sample.ada_hex) bearer.
Proof.
  intros anyone bearer.
  pose (passed := {| authorization := authorization bearer;
                     req_body := req_body bearer;
                     user := Some {| userId := 7%N; iat := 5%N; exp := 3605%N |} |}).
  assert (Hg : @Api.authMiddleware (ref_with true) Sample.penv (Some Sample.db)
                 Sample.env bearer = Next passed).
  { vm_compute. reflexivity. }
  split.
  - apply (@current_server_extends_legacy (ref_with true) Sample.penv
             (Some Sample.db) Sample.env anyone Sample.ada_hex).
  - destruct (@current_server_extends_legacy (ref_with true) Sample.penv
                (Some Sample.db) Sample.env bearer Sample.ada_hex)
      as (_ & _ & T).
    destruct (T passed Hg) as (Hpost & _ & Hput). split; [exact Hpost|].
    apply Hput; reflexivity.
Defined.

(** ** More on registration *)

(** X16: the registration route checks that a password is truthy, not that
    it is a string.  A truthy password that is not a string (a number, [true],
    an array, an object) is never registered: the answer is 400 when the
    email is taken and 500 otherwise, as [bcrypt.hash] throws, and nothing is
    stored. *)
Theorem register_rejects_non_string_password `{Libs} (penv : ProcessEnv)
    (db : option DB) (e : Env) (req : Request) :
  (forall s, get (req_body req) "password" <> VStr s) ->
  exists r,
    Api.handle penv db e PostRegister req = (db, Some r) /\
    (status r = 400%N \/ status r = 500%N).
Proof.
  intros Hp. unfold Api.handle, Api.app, run, Api.register.
  destruct (negb _ || negb _); simpl; [eexists; split; [done|by left]|].
  destruct db as [d|]; simpl; [|eexists; split; [done|by right]].
  destruct (findOne_by _ _ _); simpl; [eexists; split; [done|by left]|].
  unfold bcrypt_hash.
  destruct (get (req_body req) "password") as [| | | |s| | | |];
    try (by destruct (Hp s)); simpl; eexists; (split; [done|by right]).
Qed.

Lemma register_rejects_non_string_password_witness :
  exists r,
    Api.handle Sample.penv (Some Sample.db) Sample.env PostRegister
      (Sample.request None [("email", VStr "c@d.org"); ("password", VNum 12345)]) =
    (Some Sample.db, Some r) /\
    (status r = 400%N \/ status r = 500%N).
Proof.
  apply (register_rejects_non_string_password Sample.penv (Some Sample.db) Sample.env
           (Sample.request None [("email", VStr "c@d.org"); ("password", VNum 12345)])
           (fun s => ltac:(discriminate))).
Defined.

(** X17: a registration answered 201 stores a document with three fields and
    no more: [email] as submitted, [password] as a string (the digest) and
    [createdAt], the time of the request.  Whatever else the body holds (a
    role, an [_id], a [createdAt]) is not stored. *)
Theorem registered_user_has_three_fields `{Libs} (penv : ProcessEnv) (d : DB)
    (e : Env) (req : Request) (db' : option DB) (r : Response) :
  Api.handle penv (Some d) e PostRegister req = (db', Some r) ->
  status r = 201%N ->
  exists d' stored hashed,
    db' = Some d' /\
    users d' = (users d ++ [(fresh_id e, stored)])%list /\
    students d' = students d /\ courses d' = courses d /\
    (forall k, stored !! k =
       if bool_decide (k = "email") then req_body req !! "email"
       else if bool_decide (k = "password") then Some (VStr hashed)
       else if bool_decide (k = "createdAt") then Some (VDate (now e))
       else None).
Proof.
  intros Hreg Hs.
  destruct (register_created penv d e req db' r Hreg Hs) as (pw & Hpw & -> & _).
  do 3 eexists. split; [done|]. split; [done|]. split; [done|]. split; [done|].
  assert (He : req_body req !! "email" = Some (get (req_body req) "email")).
  { unfold Api.handle, Api.app, run, Api.register in Hreg.
    unfold get in *. destruct (req_body req !! "email"); [done|].
    simpl in Hreg. injection Hreg as _ <-. discriminate Hs. }
  intros k. unfold obj. simpl.
  repeat case_bool_decide; subst;
    rewrite ?lookup_insert_eq, ?lookup_insert_ne, ?lookup_empty by done; done.
Qed.

Lemma registered_user_has_three_fields_witness :
  let req := Sample.request None [("email", VStr "c@d.org");
                                  ("password", VStr "hunter2");
                                  ("role", VStr "admin")] in
  let out := Api.handle Sample.penv (Some Sample.db) Sample.env PostRegister req in
  exists d' stored hashed,
    out.1 = Some d' /\
    users d' = (users Sample.db ++ [(fresh_id Sample.env, stored)])%list /\
    students d' = students Sample.db /\ courses d' = courses Sample.db /\
    (forall k, stored !! k =
       if bool_decide (k = "email") then req_body req !! "email"
       else if bool_decide (k = "password") then Some (VStr hashed)
       else if bool_decide (k = "createdAt") then Some (VDate (now Sample.env))
       else None).
Proof.
  intros req out.
  apply (registered_user_has_three_fields Sample.penv Sample.db Sample.env req
           out.1 (default (empty 0) out.2)).
  - vm_compute. reflexivity.
  - reflexivity.
Defined.
